(** * Multi-account session manager: a shallow embedding of the session
      provider (state/session) and the properties of its operations.

    The provider keeps React state (active agent, account roster, two
    flags, a dirty marker for persistence).  Its callbacks are embedded
    as computations in a small state-and-exception monad over that
    state.  Everything the provider imports from other packages
    (jwt-decode, the protocol client, the labeler cache, the clock) is
    gathered in a record [World] of oracles, so that every statement
    below holds for any behaviour of those collaborators.  Logging and
    analytics calls have no effect on the state and are left out. *)

From Stdlib Require Import String List ZArith Bool Lia.
Import ListNotations.
Open Scope string_scope.

(** ** JavaScript values and errors *)

Inductive JsError : Type :=
| InvalidTokenError            (* thrown by jwt-decode *)
| NetworkError                 (* a transient transport failure *)
| Error (message : string).    (* any other thrown value *)

Inductive Res (A : Type) : Type :=
| Ok (a : A)
| Throw (e : JsError).
Arguments Ok {A} a.
Arguments Throw {A} e.

Inductive JsValue : Type :=
| JsString (s : string)
| JsNumber (n : Z)
| JsBool (b : bool)
| JsNull.

(** The claims of a decoded token, as far as the provider reads them. *)
Record JwtPayload : Type := mkPayload {
  exp : option Z;
  scope : option JsValue
}.

(** [x || ''] on an optional string. *)
Definition orEmpty (x : option string) : string :=
  match x with Some s => s | None => "" end.

(** Truthiness of an optional string: [undefined] and [''] are falsy. *)
Definition truthy (x : option string) : bool :=
  match x with Some s => negb (s =? "") | None => false end.

(** [x || d] where [x] is an optional string and [d] a string. *)
Definition orStr (x : option string) (d : string) : string :=
  if truthy x then orEmpty x else d.

(** [x || d] where both sides are optional strings. *)
Definition orOptStr (x d : option string) : option string :=
  if truthy x then x else d.

(** [x || d] where both sides are optional booleans. *)
Definition orOptBool (x d : option bool) : option bool :=
  match x with Some true => Some true | _ => d end.

(** ** Data model *)

(** persisted.PersistedAccount *)
Record SessionAccount : Type := mkAccount {
  service : string;
  did : string;
  handle : string;
  email : option string;
  emailConfirmed : option bool;
  deactivated : option bool;
  refreshJwt : option string;
  accessJwt : option string
}.

(** BskyAgent['session'] (AtpSessionData) *)
Record AtpSessionData : Type := mkSession {
  sess_did : string;
  sess_handle : string;
  sess_email : option string;
  sess_emailConfirmed : option bool;
  sess_accessJwt : string;
  sess_refreshJwt : string
}.

Inductive AtpSessionEvent : Type :=
| EvCreate | EvCreateFailed | EvUpdate | EvExpired | EvNetworkError.

(** A protocol client, as far as the provider observes it. *)
Record BskyAgent : Type := mkAgent {
  agentService : string;
  session : option AtpSessionData;
  labelersHeader : list string
}.

(** What the provider does to the outside: remote calls issued on a
    protocol client, and broadcasts on the event bus.  Most recent first. *)
Inductive Event : Type :=
| NetCreateAccount (svc hdl : string)
| NetLogin (svc identifier : string)
| NetUpsertProfile
| NetResolveHandle (hdl : string)
| NetResumeSession (d : string)
| SessionDropped.

Definition isNetCall (e : Event) : bool :=
  match e with SessionDropped => false | _ => true end.

Definition isResumeCall (e : Event) : bool :=
  match e with NetResumeSession _ => true | _ => false end.

Definition isUpsertProfileCall (e : Event) : bool :=
  match e with NetUpsertProfile => true | _ => false end.

(** The provider's state. *)
Record State : Type := mkState {
  agent : BskyAgent;
  accounts : list SessionAccount;
  isInitialLoad : bool;
  isSwitchingAccounts : bool;
  isDirty : bool;
  appLabelers : list string;     (* BskyAgent.configure({appLabelers}) *)
  trace : list Event
}.

(** One call of the protocol client that may fire the persist-session
    handler: the events it fires, in order, then its result. *)
Record CallOutcome : Type := mkOutcome {
  fired : list (AtpSessionEvent * option AtpSessionData);
  result : Res AtpSessionData
}.

Record CreateAccountProps : Type := mkCreateProps {
  ca_service : string;
  ca_email : string;
  ca_password : string;
  ca_handle : string;
  ca_inviteCode : option string;
  ca_verificationPhone : option string;
  ca_verificationCode : option string
}.

Record LoginProps : Type := mkLoginProps {
  li_service : string;
  li_identifier : string;
  li_password : string
}.

(** persisted.get('session') *)
Record PersistedSession : Type := mkPersisted {
  p_accounts : list SessionAccount;
  p_currentAccount : option SessionAccount
}.

(** The collaborators of the provider.  Remote calls see the history of
    earlier events, so that successive calls may answer differently. *)
Record World : Type := mkWorld {
  jwtDecode : string -> Res JwtPayload;
  dateNow : Z;
  IS_TEST_USER : string -> bool;
  BSKY_LABELER_DID : string;
  PUBLIC_BSKY_SERVICE : string;
  serviceToString : string -> string;
  readLabelers : string -> option (list string);
  agent_resolveHandle : list Event -> string -> option string;
  agent_createAccount : list Event -> CreateAccountProps -> Res (option AtpSessionData);
  agent_login : list Event -> LoginProps -> Res (option AtpSessionData);
  agent_upsertProfile : list Event -> Res unit;
  agent_resumeSession : list Event -> AtpSessionData -> CallOutcome
}.

(** ** The monad of provider callbacks *)

Definition M (A : Type) : Type := State -> Res A * State.

Definition ret {A} (a : A) : M A := fun s => (Ok a, s).

Definition bind {A B} (m : M A) (k : A -> M B) : M B :=
  fun s => match m s with
           | (Ok a, s') => k a s'
           | (Throw e, s') => (Throw e, s')
           end.

Definition throw {A} (e : JsError) : M A := fun s => (Throw e, s).

Definition liftRes {A} (r : Res A) : M A := fun s => (r, s).

Definition modify (f : State -> State) : M unit := fun s => (Ok tt, f s).

Definition gets {A} (f : State -> A) : M A := fun s => (Ok (f s), s).

(** [try { m } catch (e) { h e }]: effects made before the throw stay. *)
Definition tryCatch {A} (m : M A) (h : JsError -> M A) : M A :=
  fun s => match m s with
           | (Ok a, s') => (Ok a, s')
           | (Throw e, s') => h e s'
           end.

(** [try { m } finally { f }] *)
Definition finally {A} (m : M A) (f : M unit) : M A :=
  fun s => match m s with
           | (r, s') => match f s' with
                        | (Ok _, s'') => (r, s'')
                        | (Throw e, s'') => (Throw e, s'')
                        end
           end.

(** A promise that is started and never awaited: the call is issued, its
    outcome is dropped. *)
Definition dontAwait {A} (m : M A) : M unit :=
  fun s => (Ok tt, snd (m s)).

Declare Scope session_scope.
Delimit Scope session_scope with session.
Notation "x <- m ;; k" := (bind m (fun x => k))
  (at level 100, m at next level, right associativity) : session_scope.
Notation "m ;;; k" := (bind m (fun _ => k))
  (at level 100, right associativity) : session_scope.
Open Scope session_scope.

Definition emit (e : Event) : M unit :=
  modify (fun s => mkState (agent s) (accounts s) (isInitialLoad s)
                     (isSwitchingAccounts s) (isDirty s) (appLabelers s)
                     (e :: trace s)).

Definition setAgent (a : BskyAgent) : M unit :=
  modify (fun s => mkState a (accounts s) (isInitialLoad s)
                     (isSwitchingAccounts s) (isDirty s) (appLabelers s)
                     (trace s)).

Definition setAccounts (f : list SessionAccount -> list SessionAccount) : M unit :=
  modify (fun s => mkState (agent s) (f (accounts s)) (isInitialLoad s)
                     (isSwitchingAccounts s) (isDirty s) (appLabelers s)
                     (trace s)).

Definition setIsInitialLoad (b : bool) : M unit :=
  modify (fun s => mkState (agent s) (accounts s) b
                     (isSwitchingAccounts s) (isDirty s) (appLabelers s)
                     (trace s)).

Definition setIsSwitchingAccounts (b : bool) : M unit :=
  modify (fun s => mkState (agent s) (accounts s) (isInitialLoad s)
                     b (isDirty s) (appLabelers s) (trace s)).

(** BskyAgent.configure({appLabelers}) *)
Definition configureAppLabelers (l : list string) : M unit :=
  modify (fun s => mkState (agent s) (accounts s) (isInitialLoad s)
                     (isSwitchingAccounts s) (isDirty s) l (trace s)).

Definition persistNextUpdate : M unit :=
  modify (fun s => mkState (agent s) (accounts s) (isInitialLoad s)
                     (isSwitchingAccounts s) true (appLabelers s) (trace s)).

Definition emitSessionDropped : M unit := emit SessionDropped.

(** ** Token inspection and conversions *)

Section Provider.
Context (w : World).

Definition DEACTIVATED_SCOPE : string := "com.atproto.deactivated".

Definition isDeactivatedScope (v : option JsValue) : bool :=
  match v with
  | Some (JsString s) => s =? DEACTIVATED_SCOPE
  | _ => false
  end.

(** isSessionDeactivated: [jwtDecode] is called unguarded, so its
    exception is the function's exception. *)
Definition isSessionDeactivated (accessJwt : option string) : Res bool :=
  if truthy accessJwt then
    match jwtDecode w (orEmpty accessJwt) with
    | Ok sessData => Ok (isDeactivatedScope (scope sessData))
    | Throw e => Throw e
    end
  else Ok false.

Definition agentToSessionAccount (a : BskyAgent) : Res (option SessionAccount) :=
  match session a with
  | None => Ok None
  | Some s =>
      match isSessionDeactivated (Some (sess_accessJwt s)) with
      | Ok d =>
          Ok (Some (mkAccount (serviceToString w (agentService a))
                      (sess_did s) (sess_handle s) (sess_email s)
                      (sess_emailConfirmed s) (Some d)
                      (Some (sess_refreshJwt s)) (Some (sess_accessJwt s))))
      | Throw e => Throw e
      end
  end.

Definition sessionAccountToAgentSession (account : SessionAccount) : AtpSessionData :=
  mkSession (did account) (handle account) (email account)
    (emailConfirmed account) (orEmpty (accessJwt account))
    (orEmpty (refreshJwt account)).

(** ** The persist-session handler *)

Definition isExpiredEvent (event : AtpSessionEvent) : bool :=
  match event with EvExpired | EvCreateFailed => true | _ => false end.

(** The account the handler hands to its callback. *)
Definition refreshedAccountOf (account : SessionAccount)
    (sess : option AtpSessionData) (d : bool) : SessionAccount :=
  mkAccount (service account)
    (orStr (option_map sess_did sess) (did account))
    (orStr (option_map sess_handle sess) (handle account))
    (orOptStr (match sess with Some s => sess_email s | None => None end)
       (email account))
    (orOptBool (match sess with Some s => sess_emailConfirmed s | None => None end)
       (emailConfirmed account))
    (Some d)
    (option_map sess_refreshJwt sess)
    (option_map sess_accessJwt sess).

Definition createPersistSessionHandler (account : SessionAccount)
    (persistSessionCallback : bool -> SessionAccount -> M unit)
    (networkErrorCallback : option (M unit))
    : AtpSessionEvent -> option AtpSessionData -> M unit :=
  fun event sess =>
    let expired := isExpiredEvent event in
    match event with
    | EvNetworkError =>
        match networkErrorCallback with
        | Some cb => cb
        | None => ret tt
        end
    | _ =>
        d <- liftRes (isSessionDeactivated (option_map sess_accessJwt sess)) ;;
        let refreshedAccount := refreshedAccountOf account sess d in
        (if expired then emitSessionDropped else ret tt) ;;;
        persistSessionCallback expired refreshedAccount
    end.

(** ** Roster and active-client updates *)

Definition PUBLIC_BSKY_AGENT : BskyAgent :=
  mkAgent (PUBLIC_BSKY_SERVICE w) None [].

Definition sameDid (a b : SessionAccount) : bool := did a =? did b.

(** [a => a.did !== account.did] *)
Definition otherThan (account a : SessionAccount) : bool :=
  negb (sameDid a account).

Definition upsertAccount (account : SessionAccount) : M unit :=
  persistNextUpdate ;;;
  setAccounts (fun accounts =>
    account :: filter (otherThan account) accounts).

Definition clearCurrentAccount : M unit :=
  persistNextUpdate ;;;
  setAgent PUBLIC_BSKY_AGENT ;;;
  configureAppLabelers [BSKY_LABELER_DID w].

Definition removeAccount (account : SessionAccount) : M unit :=
  persistNextUpdate ;;;
  setAccounts (fun accounts => filter (otherThan account) accounts).

Definition clearTokens (a : SessionAccount) : SessionAccount :=
  mkAccount (service a) (did a) (handle a) (email a) (emailConfirmed a)
    (deactivated a) None None.

Definition logout (logContext : string) : M unit :=
  clearCurrentAccount ;;;
  persistNextUpdate ;;;
  setAccounts (fun accounts => map clearTokens accounts).

(** The handler that createAccount, login and initSession all install:
    the same two callbacks at the three sites. *)
Definition persistSession (account : SessionAccount)
    : AtpSessionEvent -> option AtpSessionData -> M unit :=
  createPersistSessionHandler account
    (fun expired refreshedAccount =>
       upsertAccount refreshedAccount ;;;
       if expired then clearCurrentAccount else ret tt)
    (Some clearCurrentAccount).

(** ** Moderation *)

Definition TEST_MOD_AUTHORITY : string := "mod-authority.test".

Definition configureModeration (a : BskyAgent) (account : SessionAccount)
    : M BskyAgent :=
  if IS_TEST_USER w (handle account) then
    tr <- gets trace ;;
    emit (NetResolveHandle TEST_MOD_AUTHORITY) ;;;
    if truthy (agent_resolveHandle w tr TEST_MOD_AUTHORITY) then
      configureAppLabelers
        [orEmpty (agent_resolveHandle w tr TEST_MOD_AUTHORITY)] ;;;
      ret a
    else ret a
  else
    configureAppLabelers [BSKY_LABELER_DID w] ;;;
    match readLabelers w (did account) with
    | Some labelerDids =>
        ret (mkAgent (agentService a) (session a)
               (filter (fun d => negb (d =? BSKY_LABELER_DID w)) labelerDids))
    | None => ret a
    end.

(** ** Calls of the protocol client *)

Fixpoint fireAll (h : AtpSessionEvent -> option AtpSessionData -> M unit)
    (evs : list (AtpSessionEvent * option AtpSessionData)) : M unit :=
  match evs with
  | [] => ret tt
  | (ev, s) :: rest => h ev s ;;; fireAll h rest
  end.

(** [agent.resumeSession(prev)]: one remote call; the client fires its
    handler, then resolves with a session installed or rejects. *)
Definition resumeSessionCall
    (h : AtpSessionEvent -> option AtpSessionData -> M unit)
    (a : BskyAgent) (prev : AtpSessionData) : M BskyAgent :=
  tr <- gets trace ;;
  emit (NetResumeSession (sess_did prev)) ;;;
  fireAll h (fired (agent_resumeSession w tr prev)) ;;;
  s <- liftRes (result (agent_resumeSession w tr prev)) ;;
  ret (mkAgent (agentService a) (Some s) (labelersHeader a)).

Definition upsertProfileCall : M unit :=
  tr <- gets trace ;;
  emit NetUpsertProfile ;;;
  liftRes (agent_upsertProfile w tr).

(** Modelled from the spec: [isNetworkError], the test [networkRetry]
    applies to a failure, is not among the sources; the spec speaks of a
    "transient failure" of the network. *)
Definition isNetworkError (e : JsError) : bool :=
  match e with NetworkError => true | _ => false end.

(** Modelled from the spec: [networkRetry] of '#/lib/async/retry' is not
    among the sources.  The spec has the resume call "retried once on
    transient failure" and "retried at most once on transient failure
    before falling back": [fn] runs, and while it fails with a transient
    error and retries remain it runs again; any other failure, or the
    failure of the last run, is thrown. *)
Fixpoint networkRetry {A} (retries : nat) (fn : M A) : M A :=
  match retries with
  | O => fn
  | S r =>
      tryCatch fn
        (fun e => if isNetworkError e then networkRetry r fn else throw e)
  end.

(** ** Session lifecycle *)

(** The check made at the head of initSession; a decoding failure is
    caught there and leaves the flag false. *)
Definition canReusePrevSession (account : SessionAccount) : bool :=
  if truthy (accessJwt account) then
    match jwtDecode w (orEmpty (accessJwt account)) with
    | Ok decoded =>
        match exp decoded with
        | Some e =>
            if (e =? 0)%Z then false
            else negb (dateNow w >=? e * 1000)%Z
        | None => false
        end
    | Throw _ => false
    end
  else false.

(** [{...account, accessJwt: account.accessJwt || '', refreshJwt:
    account.refreshJwt || ''}], read as a session (the spread also copies
    service and deactivated, which no reader of a session looks at). *)
Definition prevSessionOf (account : SessionAccount) : AtpSessionData :=
  mkSession (did account) (handle account) (email account)
    (emailConfirmed account) (orEmpty (accessJwt account))
    (orEmpty (refreshJwt account)).

Definition withSession (a : BskyAgent) (s : AtpSessionData) : BskyAgent :=
  mkAgent (agentService a) (Some s) (labelersHeader a).

Definition initSession (account : SessionAccount) : M unit :=
  let agent0 := mkAgent (service account) None [] in
  let prevSession := prevSessionOf account in
  let canReuse := canReusePrevSession account in
  agent1 <- configureModeration agent0 account ;;
  if canReuse then
    setAgent (withSession agent1 prevSession) ;;;
    upsertAccount account
  else
    tryCatch
      (agent2 <- networkRetry 1
                   (resumeSessionCall (persistSession account) agent1 prevSession) ;;
       setAgent agent2)
      (fun _ => clearCurrentAccount).

(** resumeSession and selectAccount are callbacks over whatever
    initSession they are given (their dependency list); the provider
    gives them the one above. *)
Definition resumeSessionWith (init : SessionAccount -> M unit)
    (account : option SessionAccount) : M unit :=
  finally
    (tryCatch
       (match account with
        | Some a => init a
        | None => ret tt
        end)
       (fun _ => ret tt))
    (setIsInitialLoad false).

Definition selectAccountWith (init : SessionAccount -> M unit)
    (account : SessionAccount) (logContext : string) : M unit :=
  setIsSwitchingAccounts true ;;;
  tryCatch
    (init account ;;;
     setIsSwitchingAccounts false)
    (fun e =>
       setIsSwitchingAccounts false ;;;
       throw e).

Definition resumeSession : option SessionAccount -> M unit :=
  resumeSessionWith initSession.

Definition selectAccount : SessionAccount -> string -> M unit :=
  selectAccountWith initSession.

(** The tail shared by createAccount and login once a session exists. *)
Definition adoptAgent (a : BskyAgent) (account : SessionAccount) : M unit :=
  a' <- configureModeration a account ;;
  setAgent a' ;;;
  upsertAccount account.

Definition createAccount (props : CreateAccountProps) : M unit :=
  tr <- gets trace ;;
  emit (NetCreateAccount (ca_service props) (ca_handle props)) ;;;
  created <- liftRes (agent_createAccount w tr props) ;;
  match created with
  | None =>
      throw (Error "session: createAccount failed to establish a session")
  | Some s =>
      let a := mkAgent (ca_service props) (Some s) [] in
      d <- liftRes (isSessionDeactivated (Some (sess_accessJwt s))) ;;
      (if negb d then dontAwait upsertProfileCall else ret tt) ;;;
      account <- liftRes (agentToSessionAccount a) ;;
      match account with
      | Some account => adoptAgent a account
      | None => throw (Error "TypeError")
      end
  end.

Definition login (props : LoginProps) (logContext : string) : M unit :=
  tr <- gets trace ;;
  emit (NetLogin (li_service props) (li_identifier props)) ;;;
  logged <- liftRes (agent_login w tr props) ;;
  match logged with
  | None => throw (Error "session: login failed to establish a session")
  | Some s =>
      let a := mkAgent (li_service props) (Some s) [] in
      account <- liftRes (agentToSessionAccount a) ;;
      match account with
      | Some account => adoptAgent a account
      | None => throw (Error "TypeError")
      end
  end.

(** ** Reconciliation with the persisted snapshot *)

Definition optDidEq (a b : option string) : bool :=
  match a, b with
  | Some x, Some y => x =? y
  | None, None => true
  | _, _ => false
  end.

(** The callback given to persisted.onUpdate, for the snapshot it reads.
    [currentAccount] is the value derived from the agent at render. *)
Definition onUpdate (persistedSession : PersistedSession) : M unit :=
  a <- gets agent ;;
  currentAccount <- liftRes (agentToSessionAccount a) ;;
  setAccounts (fun _ => p_accounts persistedSession) ;;;
  match p_currentAccount persistedSession with
  | Some pc =>
      if truthy (refreshJwt pc) then
        if negb (optDidEq (Some (did pc)) (option_map did currentAccount))
        then initSession pc
        else setAgent (withSession a (sessionAccountToAgentSession pc))
      else ret tt
  | None =>
      match currentAccount with
      | Some _ => clearCurrentAccount
      | None => ret tt
      end
  end.

End Provider.

(** The ids of a roster, in order. *)
Definition dids (l : list SessionAccount) : list string := map did l.

(** ** The operations as a transition system *)

Inductive Operation : Type :=
| OpCreateAccount (props : CreateAccountProps)
| OpLogin (props : LoginProps) (logContext : string)
| OpLogout (logContext : string)
| OpClearCurrentAccount
| OpInitSession (account : SessionAccount)
| OpResumeSession (account : option SessionAccount)
| OpRemoveAccount (account : SessionAccount)
| OpSelectAccount (account : SessionAccount) (logContext : string)
| OpPersistSession (account : SessionAccount) (event : AtpSessionEvent)
    (sess : option AtpSessionData)
| OpOnUpdate (persistedSession : PersistedSession).

Definition perform (w : World) (op : Operation) : M unit :=
  match op with
  | OpCreateAccount props => createAccount w props
  | OpLogin props logContext => login w props logContext
  | OpLogout logContext => logout w logContext
  | OpClearCurrentAccount => clearCurrentAccount w
  | OpInitSession account => initSession w account
  | OpResumeSession account => resumeSession w account
  | OpRemoveAccount account => removeAccount account
  | OpSelectAccount account logContext => selectAccount w account logContext
  | OpPersistSession account event sess => persistSession w account event sess
  | OpOnUpdate persistedSession => onUpdate w persistedSession
  end.

(** The roster a snapshot brings in was written by a provider, so its ids
    are distinct; every other operation is unconstrained. *)
Definition wellFormed (op : Operation) : Prop :=
  match op with
  | OpOnUpdate persistedSession =>
      NoDup (dids (p_accounts persistedSession))
  | _ => True
  end.

(** ** Observations on states *)

Definition netCalls (s : State) : list Event := filter isNetCall (trace s).

Definition resumeCalls (s : State) : nat :=
  length (filter isResumeCall (trace s)).

Definition upsertProfileCalls (s : State) : nat :=
  length (filter isUpsertProfileCall (trace s)).

(** [upserted l l']: the roster [l'] comes from [l] by upserts alone. *)
Inductive upserted (l : list SessionAccount) : list SessionAccount -> Prop :=
| upserted_refl : upserted l l
| upserted_step (l' : list SessionAccount) (r : SessionAccount) :
    upserted l l' -> upserted l (r :: filter (otherThan r) l').

(** A step that only upserts into the roster and calls no remote service. *)
Definition quiet (s s' : State) : Prop :=
  upserted (accounts s) (accounts s') /\
  netCalls s' = netCalls s.

Definition currentAccount (w : World) (s : State) : Res (option SessionAccount) :=
  agentToSessionAccount w (agent s).

(** The pieces of initSession's resume path, named so that statements can
    speak of the outcome of the resume attempt. *)
Definition moderated (w : World) (account : SessionAccount) (s : State)
    : BskyAgent * State :=
  match configureModeration w (mkAgent (service account) None []) account s with
  | (Ok a, s') => (a, s')
  | (Throw _, s') => (mkAgent (service account) None [], s')
  end.

(** The state once a resume call has been issued for [account]. *)
Definition resumeEmitted (account : SessionAccount) (s : State) : State :=
  mkState (agent s) (accounts s) (isInitialLoad s) (isSwitchingAccounts s)
    (isDirty s) (appLabelers s) (NetResumeSession (did account) :: trace s).

Definition resumeAttempt (w : World) (account : SessionAccount)
    (a : BskyAgent) : M BskyAgent :=
  resumeSessionCall w (persistSession w account) a (prevSessionOf account).

Definition resumeWithRetry (w : World) (account : SessionAccount) (s : State)
    : Res BskyAgent * State :=
  networkRetry 1 (resumeAttempt w account (fst (moderated w account s)))
    (snd (moderated w account s)).

(** The states once createAccount, then upsertProfile, have been called. *)
Definition createEmitted (props : CreateAccountProps) (s : State) : State :=
  mkState (agent s) (accounts s) (isInitialLoad s) (isSwitchingAccounts s)
    (isDirty s) (appLabelers s)
    (NetCreateAccount (ca_service props) (ca_handle props) :: trace s).

Definition profileEmitted (s : State) : State :=
  mkState (agent s) (accounts s) (isInitialLoad s) (isSwitchingAccounts s)
    (isDirty s) (appLabelers s) (NetUpsertProfile :: trace s).

Definition withSwitching (b : bool) (s : State) : State :=
  mkState (agent s) (accounts s) (isInitialLoad s) b (isDirty s)
    (appLabelers s) (trace s).

Definition withInitialLoad (b : bool) (s : State) : State :=
  mkState (agent s) (accounts s) b (isSwitchingAccounts s) (isDirty s)
    (appLabelers s) (trace s).

Definition withAccounts (l : list SessionAccount) (s : State) : State :=
  mkState (agent s) l (isInitialLoad s) (isSwitchingAccounts s) (isDirty s)
    (appLabelers s) (trace s).

Definition withAgent (a : BskyAgent) (s : State) : State :=
  mkState a (accounts s) (isInitialLoad s) (isSwitchingAccounts s) (isDirty s)
    (appLabelers s) (trace s).

Definition withUpsertProfile (w : World) (f : list Event -> Res unit) : World :=
  mkWorld (jwtDecode w) (dateNow w) (IS_TEST_USER w) (BSKY_LABELER_DID w)
    (PUBLIC_BSKY_SERVICE w) (serviceToString w) (readLabelers w)
    (agent_resolveHandle w) (agent_createAccount w) (agent_login w)
    f (agent_resumeSession w).

(** ** Test doubles *)

Module Sample.

(** A decoder that knows four tokens and rejects every other string, as
    jwt-decode rejects whatever is not three dot-separated base64 parts
    around a JSON payload. *)
Definition decode (t : string) : Res JwtPayload :=
  if t =? "h.live.s" then
    Ok (mkPayload (Some 2000000000%Z) (Some (JsString "com.atproto.access")))
  else if t =? "h.deactivated.s" then
    Ok (mkPayload (Some 2000000000%Z) (Some (JsString "com.atproto.deactivated")))
  else if t =? "h.stale.s" then
    Ok (mkPayload (Some 1000000000%Z) (Some (JsString "com.atproto.access")))
  else if t =? "h.noexp.s" then
    Ok (mkPayload None (Some (JsString "com.atproto.access")))
  else Throw InvalidTokenError.

Definition endsWithTest (h : string) : bool :=
  substring (String.length h - 5) 5 h =? ".test".

Definition labeler : string := "did:plc:ar7c4by46qjdydhdevvrndac".

Definition sessionFor (hdl token : string) : AtpSessionData :=
  mkSession "did:plc:new" hdl None None token "r.new".

(** Every remote call fails with a transient error; a failed resume
    reports 'network-error' to the handler first. *)
Definition offline : World :=
  mkWorld decode 1700000000000%Z endsWithTest labeler
    "https://public.api.bsky.app" (fun s => s) (fun _ => None)
    (fun _ _ => None)
    (fun _ _ => Throw NetworkError)
    (fun _ _ => Throw NetworkError)
    (fun _ => Throw NetworkError)
    (fun _ _ => mkOutcome [(EvNetworkError, None)] (Throw NetworkError)).

(** Remote calls succeed; new sessions carry [token]; a resume answers
    with the session it was given and reports 'update'. *)
Definition online (token : string) : World :=
  mkWorld decode 1700000000000%Z endsWithTest labeler
    "https://public.api.bsky.app" (fun s => s) (fun _ => None)
    (fun _ _ => Some "did:plc:modauthority")
    (fun _ p => Ok (Some (sessionFor (ca_handle p) token)))
    (fun _ p => Ok (Some (sessionFor (li_identifier p) token)))
    (fun _ => Ok tt)
    (fun _ prev => mkOutcome [(EvUpdate, Some prev)] (Ok prev)).

Definition alice : SessionAccount :=
  mkAccount "https://ex.test" "did:plc:A" "alice.ex.app"
    (Some "alice@ex.app") (Some true) (Some false)
    (Some "r.alice") (Some "h.live.s").

Definition bob : SessionAccount :=
  mkAccount "https://ex.test" "did:plc:B" "bob.ex.app"
    None None (Some false) None None.

Definition bobAgain : SessionAccount :=
  mkAccount "https://ex.test" "did:plc:B" "bob.ex.app"
    None None (Some false) (Some "r.bob2") (Some "h.live.s").

Definition carol : SessionAccount :=
  mkAccount "https://ex.test" "did:plc:C" "carol.test"
    None None (Some false) (Some "r.carol") (Some "h.live.s").

Definition dave : SessionAccount :=
  mkAccount "https://ex.test" "did:plc:D" "dave.ex.app"
    None None (Some false) (Some "r.dave") (Some "h.noexp.s").

(** Signed out, with a roster. *)
Definition signedOut (w : World) (roster : list SessionAccount) : State :=
  mkState (PUBLIC_BSKY_AGENT w) roster false false false [] [].

(** Signed in as [a], with a roster. *)
Definition signedIn (a : SessionAccount) (roster : list SessionAccount) : State :=
  mkState (mkAgent (service a) (Some (sessionAccountToAgentSession a)) [])
    roster false false false [] [].

Definition props : CreateAccountProps :=
  mkCreateProps "https://ex.test" "erin@ex.app" "p" "erin.ex.app" None None None.

End Sample.

(** ** The rest of the provider *)

(** [hasSession: Boolean(currentAccount)] of the state context. *)
Definition hasSession (w : World) (s : State) : Res bool :=
  match currentAccount w s with
  | Ok (Some _) => Ok true
  | Ok None => Ok false
  | Throw e => Throw e
  end.

(** The state once login has been called. *)
Definition loginEmitted (props : LoginProps) (s : State) : State :=
  mkState (agent s) (accounts s) (isInitialLoad s) (isSwitchingAccounts s)
    (isDirty s) (appLabelers s)
    (NetLogin (li_service props) (li_identifier props) :: trace s).

(** The account agentToSessionAccount derives from a session [sd] held by
    an agent of service [svc], the token inspecting to [d]. *)
Definition accountOfSession (w : World) (svc : string) (sd : AtpSessionData)
    (d : bool) : SessionAccount :=
  mkAccount (serviceToString w svc) (sess_did sd) (sess_handle sd)
    (sess_email sd) (sess_emailConfirmed sd) (Some d)
    (Some (sess_refreshJwt sd)) (Some (sess_accessJwt sd)).

(** The state the provider starts in, for the roster read from storage
    and whatever app labelers are configured. *)
Definition initialState (w : World) (roster : list SessionAccount)
    (labs : list string) : State :=
  mkState (PUBLIC_BSKY_AGENT w) roster true false false labs [].

(** The active agent is the public one or holds a session. *)
Definition activeOrPublic (w : World) (s : State) : Prop :=
  agent s = PUBLIC_BSKY_AGENT w \/ exists sd, session (agent s) = Some sd.

(** The operations other than removeAccount and the subscription. *)
Definition keepsRoster (op : Operation) : Prop :=
  match op with
  | OpRemoveAccount _ | OpOnUpdate _ => False
  | _ => True
  end.

Definition isSessionDropped (e : Event) : bool :=
  match e with SessionDropped => true | _ => false end.

Definition sessionDrops (s : State) : nat :=
  length (filter isSessionDropped (trace s)).

Definition isLoginCall (e : Event) : bool :=
  match e with NetLogin _ _ => true | _ => false end.

Definition loginCalls (s : State) : nat :=
  length (filter isLoginCall (trace s)).

(** ** Post controls *)

Module PostCtrls.

(** A thrown value, as far as the handlers look at it: [e?.name]. *)
Record Thrown : Type := mkThrown {
  thrownName : option string;
  thrownMessage : string
}.

Inductive Outcome (A : Type) : Type :=
| Done (a : A)
| Raised (e : Thrown).
Arguments Done {A} a.
Arguments Raised {A} e.

Record ListViewBasic : Type := mkListView { listUri : string }.

(** post.author.viewer *)
Record AuthorViewerState : Type := mkAuthorViewer {
  blocking : option string;
  blockedBy : option bool;
  blockingByList : option ListViewBasic
}.

(** post.viewer *)
Record PostViewerState : Type := mkPostViewer {
  like : option string;
  repost : option string;
  replyDisabled : option bool
}.

Record PostView : Type := mkPost {
  uri : string;
  authorViewer : option AuthorViewerState;
  viewer : option PostViewerState
}.

(** What a handler does to its surroundings, most recent first. *)
Inductive Effect : Type :=
| ToastShow (message icon : string)
| PlayHaptic (strength : string)
| SendInteraction (item event : string) (feedContext : option string)
| CaptureAction (action : string)
| QueueLike
| QueueUnlike
| QueueRepost
| QueueUnrepost
| OpenComposer (quote : PostView)
| CloseAll
| SetShowLoggedOut (b : bool)
| PressReply.

Definition isMutation (e : Effect) : bool :=
  match e with
  | QueueLike | QueueUnlike | QueueRepost | QueueUnrepost => true
  | _ => false
  end.

Definition isInteraction (e : Effect) : bool :=
  match e with SendInteraction _ _ _ => true | _ => false end.

Record Ui : Type := mkUi {
  hasLikeIconBeenToggled : bool;
  effects : list Effect
}.

(** The mutation queues: each call resolves or rejects, possibly
    depending on what happened before. *)
Record Queues : Type := mkQueues {
  likeResult : list Effect -> Outcome unit;
  unlikeResult : list Effect -> Outcome unit;
  repostResult : list Effect -> Outcome unit;
  unrepostResult : list Effect -> Outcome unit
}.

Definition UI (A : Type) : Type := Ui -> Outcome A * Ui.

Definition uret {A} (a : A) : UI A := fun s => (Done a, s).

Definition ubind {A B} (m : UI A) (k : A -> UI B) : UI B :=
  fun s => match m s with
           | (Done a, s') => k a s'
           | (Raised e, s') => (Raised e, s')
           end.

Definition uraise {A} (e : Thrown) : UI A := fun s => (Raised e, s).

Definition ucatch {A} (m : UI A) (h : Thrown -> UI A) : UI A :=
  fun s => match m s with
           | (Done a, s') => (Done a, s')
           | (Raised e, s') => h e s'
           end.

(** A call whose promise nobody looks at. *)
Definition udrop {A} (m : UI A) : UI unit :=
  fun s => (Done tt, snd (m s)).

Declare Scope ui_scope.
Delimit Scope ui_scope with ui.
Notation "x <- m ;; k" := (ubind m (fun x => k))
  (at level 100, m at next level, right associativity) : ui_scope.
Notation "m ;;; k" := (ubind m (fun _ => k))
  (at level 100, right associativity) : ui_scope.
Local Open Scope ui_scope.

Definition effect (e : Effect) : UI unit :=
  fun s => (Done tt, mkUi (hasLikeIconBeenToggled s) (e :: effects s)).

Definition setHasLikeIconBeenToggled (b : bool) : UI unit :=
  fun s => (Done tt, mkUi b (effects s)).

(** [await queue()]: the call is made, then its outcome is the
    handler's. *)
Definition await (e : Effect) (r : list Effect -> Outcome unit) : UI unit :=
  fun s => (r (effects s), mkUi (hasLikeIconBeenToggled s) (e :: effects s)).

Definition BLOCKED_MESSAGE : string := "Cannot interact with a blocked user".

Definition LIKE_EVENT : string := "app.bsky.feed.defs#interactionLike".
Definition REPOST_EVENT : string := "app.bsky.feed.defs#interactionRepost".
Definition QUOTE_EVENT : string := "app.bsky.feed.defs#interactionQuote".
Definition SHARE_EVENT : string := "app.bsky.feed.defs#interactionShare".

Section Controls.
Context (q : Queues) (post : PostView) (feedContext : option string).

Definition isBlocked : bool :=
  match authorViewer post with
  | Some v =>
      truthy (blocking v)
      || match blockedBy v with Some true => true | _ => false end
      || match blockingByList v with Some _ => true | None => false end
  | None => false
  end.

(** [post.viewer?.like] and [post.viewer?.repost], as tested. *)
Definition viewerLike : bool :=
  truthy (match viewer post with Some v => like v | None => None end).

Definition viewerRepost : bool :=
  truthy (match viewer post with Some v => repost v | None => None end).

(** [catch (e) { if (e?.name !== 'AbortError') throw e }] *)
Definition isAbortError (e : Thrown) : bool :=
  match thrownName e with
  | Some n => n =? "AbortError"
  | None => false
  end.

Definition swallowAbort (e : Thrown) : UI unit :=
  if isAbortError e then uret tt else uraise e.

Definition onPressToggleLike : UI unit :=
  if isBlocked then
    effect (ToastShow BLOCKED_MESSAGE "exclamation-circle")
  else
    ucatch
      (setHasLikeIconBeenToggled true ;;;
       if negb viewerLike then
         effect (PlayHaptic "Light") ;;;
         effect (SendInteraction (uri post) LIKE_EVENT feedContext) ;;;
         effect (CaptureAction "Like") ;;;
         await QueueLike (likeResult q)
       else
         await QueueUnlike (unlikeResult q))
      swallowAbort.

Definition onRepost : UI unit :=
  if isBlocked then
    effect (ToastShow BLOCKED_MESSAGE "exclamation-circle")
  else
    ucatch
      (if negb viewerRepost then
         effect (SendInteraction (uri post) REPOST_EVENT feedContext) ;;;
         await QueueRepost (repostResult q)
       else
         await QueueUnrepost (unrepostResult q))
      swallowAbort.

Definition onQuote : UI unit :=
  if isBlocked then
    effect (ToastShow BLOCKED_MESSAGE "exclamation-circle")
  else
    effect (SendInteraction (uri post) QUOTE_EVENT feedContext) ;;;
    effect (OpenComposer post).

Definition onShare : UI unit :=
  effect (SendInteraction (uri post) SHARE_EVENT feedContext).

(** useRequireAuth of the session module, for the [hasSession] it reads. *)
Definition requireAuth (hasSession : bool) (fn : UI unit) : UI unit :=
  if hasSession then fn
  else effect CloseAll ;;; effect (SetShowLoggedOut true).

(** PostCtrlButton: no handler without [onPress]; otherwise the haptic,
    then [onPress]. *)
Definition handlePress (onPress : option (UI unit)) : option (UI unit) :=
  match onPress with
  | None => None
  | Some f => Some (effect (PlayHaptic "Light") ;;; f)
  end.

Definition handleLongPress (onLongPress : option (UI unit)) : option (UI unit) :=
  match onLongPress with
  | None => None
  | Some f => Some (effect (PlayHaptic "Heavy") ;;; f)
  end.

(** The [onPress] the reply button is given. *)
Definition replyOnPress (hasSession : bool) : option (UI unit) :=
  match viewer post with
  | Some (mkPostViewer _ _ (Some true)) => None
  | _ => Some (requireAuth hasSession (effect PressReply))
  end.

(** The [onPress] the like button is given: the promise of the toggle is
    not looked at. *)
Definition likeOnPress (hasSession : bool) : option (UI unit) :=
  Some (requireAuth hasSession (udrop onPressToggleLike)).

End Controls.

Definition mutations (s : Ui) : list Effect := filter isMutation (effects s).

Definition interactions (s : Ui) : list Effect := filter isInteraction (effects s).

(** Pressing a button: its handler runs, if it has one. *)
Definition press (h : option (UI unit)) : UI unit :=
  match h with
  | Some f => f
  | None => uret tt
  end.

End PostCtrls.

(** ** More test doubles *)

Module Fixtures.

Definition erin : LoginProps := mkLoginProps "https://ex.test" "erin.ex.app" "p".

Definition calm : PostCtrls.Queues :=
  PostCtrls.mkQueues (fun _ => PostCtrls.Done tt) (fun _ => PostCtrls.Done tt)
    (fun _ => PostCtrls.Done tt) (fun _ => PostCtrls.Done tt).

Definition aborting : PostCtrls.Queues :=
  PostCtrls.mkQueues
    (fun _ => PostCtrls.Raised (PostCtrls.mkThrown (Some "AbortError") "aborted"))
    (fun _ => PostCtrls.Raised (PostCtrls.mkThrown (Some "AbortError") "aborted"))
    (fun _ => PostCtrls.Raised (PostCtrls.mkThrown (Some "AbortError") "aborted"))
    (fun _ => PostCtrls.Raised (PostCtrls.mkThrown (Some "AbortError") "aborted")).

Definition failing : PostCtrls.Queues :=
  PostCtrls.mkQueues
    (fun _ => PostCtrls.Raised (PostCtrls.mkThrown (Some "TypeError") "boom"))
    (fun _ => PostCtrls.Raised (PostCtrls.mkThrown (Some "TypeError") "boom"))
    (fun _ => PostCtrls.Raised (PostCtrls.mkThrown (Some "TypeError") "boom"))
    (fun _ => PostCtrls.Raised (PostCtrls.mkThrown (Some "TypeError") "boom")).

Definition plain : PostCtrls.PostView :=
  PostCtrls.mkPost "at://did:plc:A/app.bsky.feed.post/1" None
    (Some (PostCtrls.mkPostViewer None None None)).

Definition liked : PostCtrls.PostView :=
  PostCtrls.mkPost "at://did:plc:A/app.bsky.feed.post/2" None
    (Some (PostCtrls.mkPostViewer
             (Some "at://did:plc:B/app.bsky.feed.like/9") None (Some true))).

Definition blocked : PostCtrls.PostView :=
  PostCtrls.mkPost "at://did:plc:A/app.bsky.feed.post/3"
    (Some (PostCtrls.mkAuthorViewer None (Some true) None))
    (Some (PostCtrls.mkPostViewer None None None)).

Definition idle : PostCtrls.Ui := PostCtrls.mkUi false [].

End Fixtures.

(** * Properties *)

(** ** Token inspection *)

Lemma truthy_Some (t : string) : truthy (Some t) = true <-> t <> "".
Proof.
  unfold truthy. destruct (t =? "") eqn:E; simpl.
  - apply String.eqb_eq in E. split; [discriminate | congruence].
  - apply String.eqb_neq in E. split; auto.
Qed.

Lemma isDeactivatedScope_spec (v : option JsValue) :
  isDeactivatedScope v = true <-> v = Some (JsString DEACTIVATED_SCOPE).
Proof.
  unfold isDeactivatedScope. destruct v as [[x| | |]|]; split; try discriminate.
  - intros H. apply String.eqb_eq in H. now subst.
  - intros [= ->]. apply String.eqb_refl.
Qed.

Lemma isSessionDeactivated_undefined (w : World) :
  isSessionDeactivated w None = Ok false /\
  isSessionDeactivated w (Some "") = Ok false.
Proof. split; reflexivity. Qed.

Lemma isSessionDeactivated_true_only (w : World) (t : option string) :
  isSessionDeactivated w t = Ok true ->
  exists s c, t = Some s /\ s <> "" /\ jwtDecode w s = Ok c /\
              scope c = Some (JsString DEACTIVATED_SCOPE).
Proof.
  unfold isSessionDeactivated. destruct (truthy t) eqn:T; [|discriminate].
  destruct t as [s|]; [|discriminate]. simpl.
  destruct (jwtDecode w s) as [c|e] eqn:D; [|discriminate].
  intros H. exists s, c. repeat split; auto.
  - now apply truthy_Some.
  - injection H as H. unfold isDeactivatedScope in H.
    destruct (scope c) as [[x| | |]|]; try discriminate.
    apply String.eqb_eq in H. now subst.
Qed.

(** C3 (what the code does on a malformed token): for a non-empty token
    that jwt-decode rejects, isSessionDeactivated does not return false;
    it throws the decoder's exception, there being no try/catch around
    the call. *)
Theorem isSessionDeactivated_throws_on_undecodable
    (w : World) (t : string) (e : JsError) :
  t <> "" ->
  jwtDecode w t = Throw e ->
  isSessionDeactivated w (Some t) = Throw e.
Proof.
  intros Ht Hd. unfold isSessionDeactivated.
  apply truthy_Some in Ht. rewrite Ht. simpl. now rewrite Hd.
Qed.

Lemma isSessionDeactivated_throws_on_undecodable_witness :
  isSessionDeactivated Sample.offline (Some "not-a-jwt") = Throw InvalidTokenError.
Proof.
  apply (isSessionDeactivated_throws_on_undecodable Sample.offline "not-a-jwt").
  - discriminate.
  - reflexivity.
Defined.

(** ** The roster *)

Section Roster.
Variable account : SessionAccount.

Lemma dids_others (l : list SessionAccount) :
  dids (filter (otherThan account) l) = filter (fun d => negb (d =? did account)) (dids l).
Proof.
  unfold dids. now rewrite filter_map_swap.
Qed.

Lemma did_not_in_others (l : list SessionAccount) :
  ~ In (did account) (dids (filter (otherThan account) l)).
Proof.
  rewrite dids_others. intros H. apply filter_In in H. destruct H as [_ H].
  now rewrite String.eqb_refl in H.
Qed.

Lemma NoDup_dids_others (l : list SessionAccount) :
  NoDup (dids l) -> NoDup (dids (filter (otherThan account) l)).
Proof.
  intros H. rewrite dids_others. now apply NoDup_filter.
Qed.

Lemma NoDup_dids_upsert (l : list SessionAccount) :
  NoDup (dids l) -> NoDup (dids (account :: filter (otherThan account) l)).
Proof.
  intros H. simpl. constructor.
  - apply did_not_in_others.
  - now apply NoDup_dids_others.
Qed.

Lemma same_in_others_nil (l : list SessionAccount) :
  filter (fun a => sameDid a account) (filter (otherThan account) l) = [].
Proof.
  induction l as [|a l IH]; simpl; auto.
  unfold otherThan at 1.
  destruct (sameDid a account) eqn:E; simpl; auto.
  now rewrite E.
Qed.

Lemma others_idempotent (again : SessionAccount) (l : list SessionAccount) :
  did again = did account ->
  filter (otherThan again) (account :: filter (otherThan account) l)
  = filter (otherThan account) l.
Proof.
  intros E.
  assert (X : forall a, otherThan again a = otherThan account a)
    by (intro a; unfold otherThan, sameDid; now rewrite E).
  simpl. rewrite X. unfold otherThan at 1, sameDid at 1.
  rewrite String.eqb_refl. simpl.
  induction l as [|a l IH]; simpl; auto.
  destruct (otherThan account a) eqn:S; simpl; auto.
  rewrite X, S. now f_equal.
Qed.

Lemma others_keeps_order (l : list SessionAccount) (a : SessionAccount) :
  In a l -> did a <> did account -> In a (filter (otherThan account) l).
Proof.
  intros Hin Hne. apply filter_In. split; auto.
  unfold otherThan, sameDid. apply String.eqb_neq in Hne. now rewrite Hne.
Qed.

End Roster.

Lemma dids_clearTokens (l : list SessionAccount) :
  dids (map clearTokens l) = dids l.
Proof.
  unfold dids. rewrite map_map. now apply map_ext.
Qed.

Ltac run :=
  unfold upsertAccount, removeAccount, logout, clearCurrentAccount,
    persistNextUpdate, setAccounts, setAgent, setIsInitialLoad,
    setIsSwitchingAccounts, configureAppLabelers, emitSessionDropped, emit,
    modify, gets, liftRes, ret, throw, bind, tryCatch, finally;
  simpl.

Lemma upsertAccount_run (account : SessionAccount) (s : State) :
  upsertAccount account s =
  (Ok tt, mkState (agent s) (account :: filter (otherThan account) (accounts s))
            (isInitialLoad s) (isSwitchingAccounts s) true (appLabelers s)
            (trace s)).
Proof. reflexivity. Qed.

Lemma clearCurrentAccount_run (w : World) (s : State) :
  clearCurrentAccount w s =
  (Ok tt, mkState (PUBLIC_BSKY_AGENT w) (accounts s) (isInitialLoad s)
            (isSwitchingAccounts s) true [BSKY_LABELER_DID w] (trace s)).
Proof. reflexivity. Qed.

(** C7: logout leaves every roster entry in place with accessJwt and
    refreshJwt undefined and every other field as it was (same length,
    same ids in the same order), and makes the public agent the active
    one, so that there is no current account. *)
Theorem logout_clears_tokens_keeps_entries
    (w : World) (logContext : string) (st : State) :
  let st1 := snd (logout w logContext st) in
  fst (logout w logContext st) = Ok tt /\
  accounts st1 = map clearTokens (accounts st) /\
  length (accounts st1) = length (accounts st) /\
  dids (accounts st1) = dids (accounts st) /\
  (forall i a, nth_error (accounts st) i = Some a ->
     exists a', nth_error (accounts st1) i = Some a' /\
       accessJwt a' = None /\ refreshJwt a' = None /\
       service a' = service a /\ did a' = did a /\ handle a' = handle a /\
       email a' = email a /\ emailConfirmed a' = emailConfirmed a /\
       deactivated a' = deactivated a) /\
  agent st1 = PUBLIC_BSKY_AGENT w /\
  currentAccount w st1 = Ok None /\
  trace st1 = trace st.
Proof.
  run. repeat split.
  - apply length_map.
  - apply dids_clearTokens.
  - intros i a Hi. exists (clearTokens a). split.
    + now apply map_nth_error.
    + simpl. repeat split.
Qed.

(** ** The installed persist-session handler *)

Lemma persistSession_run (w : World) (account : SessionAccount)
    (event : AtpSessionEvent) (sess : option AtpSessionData) (d : bool)
    (st : State) :
  event <> EvNetworkError ->
  isSessionDeactivated w (option_map sess_accessJwt sess) = Ok d ->
  persistSession w account event sess st =
  (Ok tt,
   let r := refreshedAccountOf account sess d in
   if isExpiredEvent event then
     mkState (PUBLIC_BSKY_AGENT w) (r :: filter (otherThan r) (accounts st))
       (isInitialLoad st) (isSwitchingAccounts st) true
       [BSKY_LABELER_DID w] (SessionDropped :: trace st)
   else
     mkState (agent st) (r :: filter (otherThan r) (accounts st))
       (isInitialLoad st) (isSwitchingAccounts st) true
       (appLabelers st) (trace st)).
Proof.
  intros Hev Hd. unfold persistSession, createPersistSessionHandler.
  destruct event; try congruence; unfold bind, liftRes; rewrite Hd; reflexivity.
Qed.

Lemma persistSession_throws (w : World) (account : SessionAccount)
    (event : AtpSessionEvent) (sess : option AtpSessionData) (e : JsError)
    (st : State) :
  event <> EvNetworkError ->
  isSessionDeactivated w (option_map sess_accessJwt sess) = Throw e ->
  persistSession w account event sess st = (Throw e, st).
Proof.
  intros Hev Hd. unfold persistSession, createPersistSessionHandler.
  destruct event; try congruence; unfold bind, liftRes; rewrite Hd; reflexivity.
Qed.

Lemma persistSession_network_error_run (w : World) (account : SessionAccount)
    (sess : option AtpSessionData) (st : State) :
  persistSession w account EvNetworkError sess st = clearCurrentAccount w st.
Proof. reflexivity. Qed.

Lemma orStr_cases (x : option string) (d : string) :
  (truthy x = false /\ orStr x d = d) \/
  (exists s, x = Some s /\ s <> "" /\ orStr x d = s).
Proof.
  unfold orStr. destruct (truthy x) eqn:T.
  - right. destruct x as [s|]; [|discriminate]. exists s.
    repeat split; auto. now apply truthy_Some.
  - left. auto.
Qed.

(** C10 (as the code has it): for an event other than 'network-error',
    when the handler completes, the record it puts at the front of the
    roster has the prior account's service, and its did, handle, email
    and emailConfirmed are the prior account's whenever the session is
    missing or does not carry them; the did is therefore never erased,
    and it differs from the prior one only when the session itself
    carries another, non-empty did. *)
Theorem persistSession_upserts_with_fallback
    (w : World) (account : SessionAccount) (event : AtpSessionEvent)
    (sess : option AtpSessionData) (st st' : State) :
  event <> EvNetworkError ->
  persistSession w account event sess st = (Ok tt, st') ->
  exists r,
    accounts st' = r :: filter (otherThan r) (accounts st) /\
    service r = service account /\
    (did r = did account \/
     exists s, sess = Some s /\ sess_did s <> "" /\ did r = sess_did s) /\
    (truthy (option_map sess_did sess) = false -> did r = did account) /\
    (did account <> "" -> did r <> "") /\
    (truthy (option_map sess_handle sess) = false ->
       handle r = handle account) /\
    ((forall s, sess = Some s -> truthy (sess_email s) = false) ->
       email r = email account) /\
    ((forall s, sess = Some s -> sess_emailConfirmed s <> Some true) ->
       emailConfirmed r = emailConfirmed account) /\
    (sess = None ->
       did r = did account /\ handle r = handle account /\
       email r = email account /\
       emailConfirmed r = emailConfirmed account /\
       accessJwt r = None /\ refreshJwt r = None).
Proof.
  intros Hev Hrun.
  destruct (isSessionDeactivated w (option_map sess_accessJwt sess))
    as [d|e] eqn:Hd.
  2:{ rewrite (persistSession_throws w account event sess e st Hev Hd) in Hrun.
      discriminate. }
  rewrite (persistSession_run w account event sess d st Hev Hd) in Hrun.
  injection Hrun as Hst.
  exists (refreshedAccountOf account sess d).
  split. { subst st'. cbv zeta. now destruct (isExpiredEvent event). }
  split; [reflexivity|].
  cbn [refreshedAccountOf did handle email emailConfirmed accessJwt refreshJwt].
  split.
  { destruct (orStr_cases (option_map sess_did sess) (did account))
      as [[_ E]|(s & Es & Hs & E)]; [now left|right].
    destruct sess as [s0|]; [|discriminate]. injection Es as Es.
    exists s0. subst s. auto. }
  split.
  { intros T. unfold orStr. now rewrite T. }
  split.
  { intros Hne.
    destruct (orStr_cases (option_map sess_did sess) (did account))
      as [[_ E]|(s & _ & Hs & E)]; rewrite E; auto. }
  split.
  { intros T. unfold orStr. now rewrite T. }
  split.
  { intros Hs. unfold orOptStr. destruct sess as [s|]; [|reflexivity].
    now rewrite (Hs s eq_refl). }
  split.
  { intros Hs. unfold orOptBool. destruct sess as [s|]; [|reflexivity].
    specialize (Hs s eq_refl).
    destruct (sess_emailConfirmed s) as [[|]|]; congruence. }
  intros ->. repeat split.
Qed.

Lemma persistSession_upserts_with_fallback_witness :
  exists r,
    accounts (snd (persistSession Sample.offline Sample.alice EvExpired None
                     (Sample.signedIn Sample.alice [Sample.alice; Sample.bob])))
    = r :: filter (otherThan r) [Sample.alice; Sample.bob] /\
    service r = "https://ex.test" /\ did r = "did:plc:A".
Proof.
  destruct (persistSession_upserts_with_fallback Sample.offline Sample.alice
              EvExpired None
              (Sample.signedIn Sample.alice [Sample.alice; Sample.bob])
              (snd (persistSession Sample.offline Sample.alice EvExpired None
                     (Sample.signedIn Sample.alice [Sample.alice; Sample.bob]))))
    as (r & Hacc & Hsvc & _ & _ & _ & _ & _ & _ & Hnone).
  - discriminate.
  - reflexivity.
  - exists r. split; [exact Hacc|]. split; [exact Hsvc|].
    exact (proj1 (Hnone eq_refl)).
Defined.

(** C10, the claim as stated fails: an 'update' event whose session
    carries another did makes the handler upsert a record under that
    other did, next to the entry of the prior account. *)
Lemma persistSession_did_can_change :
  did Sample.alice = "did:plc:A" /\
  dids (accounts (snd (persistSession Sample.offline Sample.alice EvUpdate
                         (Some (Sample.sessionFor "alice.ex.app" "h.live.s"))
                         (Sample.signedIn Sample.alice [Sample.alice]))))
  = ["did:plc:new"; "did:plc:A"].
Proof. split; reflexivity. Qed.

(** C2 (as the code has it): on 'network-error' the installed handler
    runs the callback it was given, clearCurrentAccount: the roster is
    untouched, nothing is emitted and no remote call is made, but the
    public agent becomes the active one, so the current account is gone
    and the next update is persisted.  Only a handler created without
    that callback leaves the state as it was. *)
Theorem persistSession_network_error_clears_current
    (w : World) (account : SessionAccount) (sess : option AtpSessionData)
    (st : State) :
  let st1 := snd (persistSession w account EvNetworkError sess st) in
  fst (persistSession w account EvNetworkError sess st) = Ok tt /\
  accounts st1 = accounts st /\
  trace st1 = trace st /\
  agent st1 = PUBLIC_BSKY_AGENT w /\
  currentAccount w st1 = Ok None /\
  isDirty st1 = true /\
  (forall cb, createPersistSessionHandler w account cb None
                EvNetworkError sess st = (Ok tt, st)) /\
  (forall cb onError, createPersistSessionHandler w account cb (Some onError)
                EvNetworkError sess st = onError st).
Proof.
  rewrite persistSession_network_error_run, clearCurrentAccount_run.
  repeat split.
Qed.

(** C2, the claim as stated fails: signed in as alice, a 'network-error'
    event leaves no current account. *)
Lemma persistSession_network_error_drops_session :
  currentAccount Sample.offline
    (Sample.signedIn Sample.alice [Sample.alice; Sample.bob])
  = Ok (Some Sample.alice) /\
  currentAccount Sample.offline
    (snd (persistSession Sample.offline Sample.alice EvNetworkError None
            (Sample.signedIn Sample.alice [Sample.alice; Sample.bob])))
  = Ok None /\
  agent (snd (persistSession Sample.offline Sample.alice EvNetworkError None
            (Sample.signedIn Sample.alice [Sample.alice; Sample.bob])))
  <> agent (Sample.signedIn Sample.alice [Sample.alice; Sample.bob]).
Proof. repeat split. discriminate. Qed.

(** ** Steps that neither drop a roster id nor call the network *)

Lemma upserted_trans (l1 l2 l3 : list SessionAccount) :
  upserted l1 l2 -> upserted l2 l3 -> upserted l1 l3.
Proof.
  intros H12 H23. induction H23 as [|l' r H IH]; auto.
  now apply upserted_step.
Qed.

Lemma quiet_refl (s : State) : quiet s s.
Proof. split; [apply upserted_refl | reflexivity]. Qed.

Lemma quiet_trans (s1 s2 s3 : State) : quiet s1 s2 -> quiet s2 s3 -> quiet s1 s3.
Proof.
  intros [A1 B1] [A2 B2]. split; [eapply upserted_trans; eauto | congruence].
Qed.

Lemma In_dids_upsert (r : SessionAccount) (l : list SessionAccount) (d : string) :
  In d (dids l) -> In d (dids (r :: filter (otherThan r) l)).
Proof.
  intros H. simpl. destruct (String.eqb (did r) d) eqn:E.
  - left. now apply String.eqb_eq.
  - right. unfold dids in H. apply in_map_iff in H. destruct H as (a & Ha & Hin).
    unfold dids. apply in_map_iff. exists a. split; auto.
    apply others_keeps_order; auto.
    apply String.eqb_neq in E. congruence.
Qed.

Lemma upserted_keeps_dids (l l' : list SessionAccount) (d : string) :
  upserted l l' -> In d (dids l) -> In d (dids l').
Proof.
  intros U H. induction U as [|l' r U IH]; auto.
  now apply In_dids_upsert.
Qed.

Lemma upserted_NoDup (l l' : list SessionAccount) :
  upserted l l' -> NoDup (dids l) -> NoDup (dids l').
Proof.
  intros U H. induction U as [|l' r U IH]; auto.
  now apply NoDup_dids_upsert.
Qed.

Lemma resumeCalls_netCalls (s : State) :
  resumeCalls s = length (filter isResumeCall (netCalls s)).
Proof.
  unfold resumeCalls, netCalls. f_equal.
  induction (trace s) as [|e t IH]; simpl; auto.
  destruct e; simpl; now rewrite IH.
Qed.

Lemma quiet_persistSession (w : World) (account : SessionAccount)
    (ev : AtpSessionEvent) (sess : option AtpSessionData) (s : State) :
  quiet s (snd (persistSession w account ev sess s)).
Proof.
  assert (C : ev = EvNetworkError \/ ev <> EvNetworkError)
    by (destruct ev; (now left) || (right; discriminate)).
  destruct C as [->|Hev].
  - rewrite persistSession_network_error_run, clearCurrentAccount_run.
    split; [apply upserted_refl | reflexivity].
  - destruct (isSessionDeactivated w (option_map sess_accessJwt sess))
      as [d|e] eqn:Hd.
    + rewrite (persistSession_run w account ev sess d s Hev Hd).
      cbv zeta. destruct (isExpiredEvent ev); split;
        cbn [snd accounts trace]; try reflexivity;
        apply upserted_step, upserted_refl.
    + rewrite (persistSession_throws w account ev sess e s Hev Hd).
      apply quiet_refl.
Qed.

Lemma quiet_fireAll (w : World) (account : SessionAccount)
    (evs : list (AtpSessionEvent * option AtpSessionData)) :
  forall s, quiet s (snd (fireAll (persistSession w account) evs s)).
Proof.
  induction evs as [|[ev sess] evs IH]; intros s; simpl.
  - apply quiet_refl.
  - unfold bind.
    pose proof (quiet_persistSession w account ev sess s) as Q.
    destruct (persistSession w account ev sess s) as [[u|e] s1]; simpl in *.
    + eapply quiet_trans; [exact Q | apply IH].
    + exact Q.
Qed.

(** ** Moderation never fails and never touches roster or agent *)

Lemma configureModeration_run (w : World) (a : BskyAgent)
    (account : SessionAccount) (s : State) :
  exists a' labs,
    configureModeration w a account s =
    (Ok a', mkState (agent s) (accounts s) (isInitialLoad s)
              (isSwitchingAccounts s) (isDirty s) labs
              ((if IS_TEST_USER w (handle account)
                then [NetResolveHandle TEST_MOD_AUTHORITY] else [])
               ++ trace s)) /\
    agentService a' = agentService a /\ session a' = session a.
Proof.
  unfold configureModeration.
  destruct (IS_TEST_USER w (handle account)).
  - run. destruct (truthy _); eexists; eexists; split; try reflexivity; auto.
  - run. destruct (readLabelers w (did account));
      eexists; eexists; split; try reflexivity; auto.
Qed.

Lemma moderated_run (w : World) (account : SessionAccount) (s : State) :
  exists a' labs,
    configureModeration w (mkAgent (service account) None []) account s
    = (Ok a', snd (moderated w account s)) /\
    fst (moderated w account s) = a' /\
    snd (moderated w account s) =
      mkState (agent s) (accounts s) (isInitialLoad s)
        (isSwitchingAccounts s) (isDirty s) labs
        ((if IS_TEST_USER w (handle account)
          then [NetResolveHandle TEST_MOD_AUTHORITY] else [])
         ++ trace s) /\
    agentService a' = service account /\ session a' = None.
Proof.
  unfold moderated.
  destruct (configureModeration_run w (mkAgent (service account) None [])
              account s) as (a' & labs & E & Hs & Hn).
  rewrite E. exists a', labs. simpl. auto.
Qed.

(** ** The resume attempt and its retry *)

Lemma resumeAttempt_eq (w : World) (account : SessionAccount)
    (a : BskyAgent) (s : State) :
  resumeAttempt w account a s =
  match fireAll (persistSession w account)
          (fired (agent_resumeSession w (trace s) (prevSessionOf account)))
          (resumeEmitted account s) with
  | (Ok _, s2) =>
      match result (agent_resumeSession w (trace s) (prevSessionOf account)) with
      | Ok sd => (Ok (withSession a sd), s2)
      | Throw e => (Throw e, s2)
      end
  | (Throw e, s2) => (Throw e, s2)
  end.
Proof. reflexivity. Qed.

Lemma resumeAttempt_run (w : World) (account : SessionAccount)
    (a : BskyAgent) (s : State) :
  upserted (accounts s) (accounts (snd (resumeAttempt w account a s))) /\
  netCalls (snd (resumeAttempt w account a s))
  = NetResumeSession (did account) :: netCalls s /\
  (forall a', fst (resumeAttempt w account a s) = Ok a' ->
     agentService a' = agentService a /\
     labelersHeader a' = labelersHeader a /\
     exists sd, session a' = Some sd).
Proof.
  rewrite resumeAttempt_eq.
  pose proof (quiet_fireAll w account
    (fired (agent_resumeSession w (trace s) (prevSessionOf account)))
    (resumeEmitted account s)) as [Qd Qn].
  destruct (fireAll (persistSession w account)
    (fired (agent_resumeSession w (trace s) (prevSessionOf account)))
    (resumeEmitted account s)) as [[u|e] s2]; simpl in Qd, Qn.
  - destruct (result _) as [sd|e]; simpl.
    + split; [exact Qd|]. split; [exact Qn|].
      intros a' [= <-]. simpl. eauto.
    + split; [exact Qd|]. split; [exact Qn|]. discriminate.
  - simpl. split; [exact Qd|]. split; [exact Qn|]. discriminate.
Qed.

Lemma resumeWithRetry_run (w : World) (account : SessionAccount) (s : State) :
  let a1 := fst (moderated w account s) in
  let s1 := snd (moderated w account s) in
  let first := resumeAttempt w account a1 s1 in
  resumeWithRetry w account s =
    match fst first with
    | Ok a2 => (Ok a2, snd first)
    | Throw e =>
        if isNetworkError e then resumeAttempt w account a1 (snd first)
        else (Throw e, snd first)
    end.
Proof.
  cbv zeta. unfold resumeWithRetry. simpl networkRetry. unfold tryCatch.
  destruct (resumeAttempt w account (fst (moderated w account s))
              (snd (moderated w account s))) as [[a2|e] s2]; simpl; auto.
  destruct (isNetworkError e); reflexivity.
Qed.

Lemma netCalls_moderated (w : World) (account : SessionAccount) (s : State) :
  netCalls (snd (moderated w account s)) =
  ((if IS_TEST_USER w (handle account)
    then [NetResolveHandle TEST_MOD_AUTHORITY] else []) ++ netCalls s)%list.
Proof.
  destruct (moderated_run w account s) as (a' & labs & _ & _ & E & _).
  rewrite E. unfold netCalls. simpl.
  destruct (IS_TEST_USER w (handle account)); reflexivity.
Qed.

Lemma resumeCalls_moderated (w : World) (account : SessionAccount) (s : State) :
  resumeCalls (snd (moderated w account s)) = resumeCalls s.
Proof.
  rewrite !resumeCalls_netCalls, netCalls_moderated.
  destruct (IS_TEST_USER w (handle account)); reflexivity.
Qed.

Lemma accounts_moderated (w : World) (account : SessionAccount) (s : State) :
  accounts (snd (moderated w account s)) = accounts s.
Proof.
  destruct (moderated_run w account s) as (a' & labs & _ & _ & E & _).
  now rewrite E.
Qed.

(** The number of resume calls made, from the outcome of the first one. *)
Lemma resumeWithRetry_calls (w : World) (account : SessionAccount) (s : State) :
  let first := resumeAttempt w account (fst (moderated w account s))
                 (snd (moderated w account s)) in
  resumeCalls (snd (resumeWithRetry w account s)) =
  resumeCalls s +
  match fst first with
  | Ok _ => 1
  | Throw e => if isNetworkError e then 2 else 1
  end.
Proof.
  cbv zeta. rewrite resumeWithRetry_run. cbv zeta.
  pose proof (resumeAttempt_run w account (fst (moderated w account s))
                (snd (moderated w account s))) as (_ & N1 & _).
  assert (R1 : resumeCalls (snd (resumeAttempt w account
                  (fst (moderated w account s)) (snd (moderated w account s))))
               = resumeCalls s + 1).
  { rewrite resumeCalls_netCalls, N1. simpl.
    rewrite <- resumeCalls_netCalls, resumeCalls_moderated. lia. }
  destruct (fst (resumeAttempt w account (fst (moderated w account s))
                   (snd (moderated w account s)))) as [a2|e]; simpl; auto.
  destruct (isNetworkError e); simpl; auto.
  pose proof (resumeAttempt_run w account (fst (moderated w account s))
                (snd (resumeAttempt w account (fst (moderated w account s))
                        (snd (moderated w account s))))) as (_ & N2 & _).
  rewrite resumeCalls_netCalls, N2. simpl.
  rewrite <- resumeCalls_netCalls, R1. lia.
Qed.

Lemma resumeWithRetry_upserted (w : World) (account : SessionAccount)
    (s : State) :
  upserted (accounts s) (accounts (snd (resumeWithRetry w account s))).
Proof.
  rewrite resumeWithRetry_run. cbv zeta.
  pose proof (resumeAttempt_run w account (fst (moderated w account s))
                (snd (moderated w account s))) as (D1 & _ & _).
  rewrite accounts_moderated in D1.
  destruct (fst (resumeAttempt w account (fst (moderated w account s))
                   (snd (moderated w account s)))) as [a2|e]; simpl; auto.
  destruct (isNetworkError e); simpl; auto.
  eapply upserted_trans; [exact D1 | apply resumeAttempt_run].
Qed.

Lemma resumeWithRetry_agent (w : World) (account : SessionAccount)
    (s : State) (a2 : BskyAgent) :
  fst (resumeWithRetry w account s) = Ok a2 ->
  agentService a2 = service account /\ exists sd, session a2 = Some sd.
Proof.
  rewrite resumeWithRetry_run. cbv zeta.
  destruct (moderated_run w account s) as (a' & labs & _ & Ea & _ & Hs & _).
  pose proof (resumeAttempt_run w account (fst (moderated w account s))
                (snd (moderated w account s))) as (_ & _ & A1).
  destruct (fst (resumeAttempt w account (fst (moderated w account s))
                   (snd (moderated w account s)))) as [a3|e] eqn:E1; simpl.
  - intros [= <-]. destruct (A1 a3 eq_refl) as (S1 & _ & X).
    rewrite S1, Ea. auto.
  - destruct (isNetworkError e); simpl; [|discriminate].
    intros E2.
    destruct (resumeAttempt_run w account (fst (moderated w account s))
                (snd (resumeAttempt w account (fst (moderated w account s))
                        (snd (moderated w account s))))) as (_ & _ & A2).
    destruct (A2 a2 E2) as (S2 & _ & X). rewrite S2, Ea. auto.
Qed.

(** ** initSession *)

Lemma canReusePrevSession_true (w : World) (account : SessionAccount)
    (c : JwtPayload) (e : Z) :
  truthy (accessJwt account) = true ->
  jwtDecode w (orEmpty (accessJwt account)) = Ok c ->
  exp c = Some e -> e <> 0%Z -> (dateNow w < e * 1000)%Z ->
  canReusePrevSession w account = true.
Proof.
  intros T D E Z0 Lt. unfold canReusePrevSession. rewrite T, D, E.
  destruct (Z.eqb_spec e 0); [contradiction|].
  destruct (Z.geb_spec (dateNow w) (e * 1000)); [lia|reflexivity].
Qed.

Lemma canReusePrevSession_false (w : World) (account : SessionAccount) :
  truthy (accessJwt account) = false \/
  (exists e, jwtDecode w (orEmpty (accessJwt account)) = Throw e) \/
  (exists c e, jwtDecode w (orEmpty (accessJwt account)) = Ok c /\
               exp c = Some e /\ (dateNow w >= e * 1000)%Z) ->
  canReusePrevSession w account = false.
Proof.
  unfold canReusePrevSession.
  intros [T|[(e & D)|(c & e & D & E & Ge)]].
  - now rewrite T.
  - rewrite D. now destruct (truthy _).
  - rewrite D, E. destruct (truthy _); auto.
    destruct (Z.eqb_spec e 0); auto.
    destruct (Z.geb_spec (dateNow w) (e * 1000)); [reflexivity|lia].
Qed.

Lemma initSession_reuse_run (w : World) (account : SessionAccount) (s : State) :
  canReusePrevSession w account = true ->
  initSession w account s =
  (Ok tt,
   mkState (withSession (fst (moderated w account s)) (prevSessionOf account))
     (account :: filter (otherThan account) (accounts s))
     (isInitialLoad s) (isSwitchingAccounts s) true
     (appLabelers (snd (moderated w account s)))
     (trace (snd (moderated w account s)))).
Proof.
  intros C. unfold initSession. rewrite C. unfold bind at 1.
  destruct (moderated_run w account s) as (a' & labs & E & Ea & Es & _).
  rewrite E, Ea, Es. reflexivity.
Qed.

Lemma initSession_resume_run (w : World) (account : SessionAccount) (s : State) :
  canReusePrevSession w account = false ->
  initSession w account s =
  match resumeWithRetry w account s with
  | (Ok a2, s2) => (Ok tt, withAgent a2 s2)
  | (Throw _, s2) => clearCurrentAccount w s2
  end.
Proof.
  intros C. unfold initSession. rewrite C. unfold bind at 1.
  destruct (moderated_run w account s) as (a' & labs & E & Ea & _).
  rewrite E. unfold resumeWithRetry, resumeAttempt. rewrite Ea.
  unfold tryCatch at 1. unfold bind at 1.
  destruct (networkRetry 1 _ _) as [[a2|e] s2]; reflexivity.
Qed.

Lemma initSession_never_throws (w : World) (account : SessionAccount) (s : State) :
  fst (initSession w account s) = Ok tt.
Proof.
  destruct (canReusePrevSession w account) eqn:C.
  - now rewrite initSession_reuse_run.
  - rewrite initSession_resume_run by assumption.
    destruct (resumeWithRetry w account s) as [[a2|e] s2]; reflexivity.
Qed.

Lemma selectAccountWith_run (init : SessionAccount -> M unit)
    (account : SessionAccount) (logContext : string) (s : State) :
  selectAccountWith init account logContext s =
  match init account (withSwitching true s) with
  | (Ok _, s1) => (Ok tt, withSwitching false s1)
  | (Throw e, s1) => (Throw e, withSwitching false s1)
  end.
Proof.
  unfold selectAccountWith. run. unfold withSwitching.
  destruct (init account _) as [[u|e] s1]; reflexivity.
Qed.

Lemma resumeSessionWith_run (init : SessionAccount -> M unit)
    (account : SessionAccount) (s : State) :
  resumeSessionWith init (Some account) s =
  (Ok tt, withInitialLoad false (snd (init account s))).
Proof.
  unfold resumeSessionWith. run.
  destruct (init account s) as [[[]|e] s1]; reflexivity.
Qed.

(** C6: when the cached access token is absent, undecodable or expired,
    initSession goes to the network: it makes one resume call, and a
    second one exactly when the first failed with a transient error; it
    never throws; and when the resume (retry included) has failed, the
    public agent is the active one, there is no current account, and
    every id of the roster, that of the account among them, is still in
    the roster.  When the resume succeeded, the resumed agent is active. *)
Theorem initSession_resumes_or_signs_out
    (w : World) (account : SessionAccount) (st : State) :
  truthy (accessJwt account) = false \/
  (exists e, jwtDecode w (orEmpty (accessJwt account)) = Throw e) \/
  (exists c e, jwtDecode w (orEmpty (accessJwt account)) = Ok c /\
               exp c = Some e /\ (dateNow w >= e * 1000)%Z) ->
  let st1 := snd (initSession w account st) in
  let first := resumeAttempt w account (fst (moderated w account st))
                 (snd (moderated w account st)) in
  fst (initSession w account st) = Ok tt /\
  resumeCalls st1 = resumeCalls st +
    match fst first with
    | Ok _ => 1
    | Throw e => if isNetworkError e then 2 else 1
    end /\
  1 <= resumeCalls st1 - resumeCalls st <= 2 /\
  (forall d, In d (dids (accounts st)) -> In d (dids (accounts st1))) /\
  (forall e, fst (resumeWithRetry w account st) = Throw e ->
     agent st1 = PUBLIC_BSKY_AGENT w /\
     currentAccount w st1 = Ok None /\
     accounts st1 = accounts (snd (resumeWithRetry w account st))) /\
  (forall a, fst (resumeWithRetry w account st) = Ok a ->
     agent st1 = a /\ agentService a = service account /\
     exists sd, session a = Some sd).
Proof.
  intros Hcred. apply canReusePrevSession_false in Hcred. cbv zeta.
  assert (Hcalls : resumeCalls (snd (initSession w account st))
                   = resumeCalls (snd (resumeWithRetry w account st))).
  { rewrite initSession_resume_run by assumption.
    destruct (resumeWithRetry w account st) as [[a2|e] s2]; reflexivity. }
  assert (Hacc : accounts (snd (initSession w account st))
                 = accounts (snd (resumeWithRetry w account st))).
  { rewrite initSession_resume_run by assumption.
    destruct (resumeWithRetry w account st) as [[a2|e] s2]; reflexivity. }
  pose proof (resumeWithRetry_calls w account st) as Hn. cbv zeta in Hn.
  split; [apply initSession_never_throws|].
  split; [now rewrite Hcalls|].
  split.
  { rewrite Hcalls, Hn.
    destruct (fst (resumeAttempt w account _ _)) as [a|e];
      [|destruct (isNetworkError e)]; lia. }
  split.
  { intros d Hd. rewrite Hacc.
    eapply upserted_keeps_dids; [apply resumeWithRetry_upserted | exact Hd]. }
  split.
  - intros e He. rewrite initSession_resume_run by assumption.
    destruct (resumeWithRetry w account st) as [[a2|e2] s2]; simpl in He;
      [discriminate|].
    rewrite clearCurrentAccount_run. repeat split.
  - intros a Ha. pose proof (resumeWithRetry_agent w account st a Ha) as Hag.
    rewrite initSession_resume_run by assumption.
    destruct (resumeWithRetry w account st) as [[a2|e2] s2]; simpl in Ha;
      [|discriminate].
    injection Ha as ->. split; [reflexivity|exact Hag].
Qed.

Lemma initSession_resumes_or_signs_out_witness :
  truthy (accessJwt Sample.bob) = false /\
  resumeCalls (snd (initSession Sample.offline Sample.bob
                      (Sample.signedIn Sample.alice [Sample.alice; Sample.bob])))
  = 2 /\
  agent (snd (initSession Sample.offline Sample.bob
                (Sample.signedIn Sample.alice [Sample.alice; Sample.bob])))
  = PUBLIC_BSKY_AGENT Sample.offline.
Proof.
  split; [reflexivity|].
  pose proof (initSession_resumes_or_signs_out Sample.offline Sample.bob
                (Sample.signedIn Sample.alice [Sample.alice; Sample.bob])
                (or_introl eq_refl)) as H.
  cbv zeta in H. destruct H as (_ & Hn & _ & _ & Hfail & _).
  split.
  - exact Hn.
  - exact (proj1 (Hfail NetworkError eq_refl)).
Defined.

(** C4 (as the code has it): when the cached access token is present and
    decodes to claims with a non-zero exp that lies ahead of the clock,
    initSession makes no resume call: the fresh agent, bound to the
    account's service and carrying the cached tokens as its session,
    becomes the active one and the account is put at the front of the
    roster.  The one remote call that can precede this is the handle
    resolution of the moderation set-up, made exactly for a test-user
    handle; for every other handle no remote call is made at all. *)
Theorem initSession_reuses_cached_session
    (w : World) (account : SessionAccount) (st : State)
    (c : JwtPayload) (e : Z) :
  truthy (accessJwt account) = true ->
  jwtDecode w (orEmpty (accessJwt account)) = Ok c ->
  exp c = Some e -> e <> 0%Z -> (dateNow w < e * 1000)%Z ->
  let st1 := snd (initSession w account st) in
  fst (initSession w account st) = Ok tt /\
  resumeCalls st1 = resumeCalls st /\
  netCalls st1 =
    ((if IS_TEST_USER w (handle account)
      then [NetResolveHandle TEST_MOD_AUTHORITY] else []) ++ netCalls st)%list /\
  (IS_TEST_USER w (handle account) = false -> trace st1 = trace st) /\
  agentService (agent st1) = service account /\
  session (agent st1) = Some (prevSessionOf account) /\
  sess_accessJwt (prevSessionOf account) = orEmpty (accessJwt account) /\
  accounts st1 = account :: filter (otherThan account) (accounts st).
Proof.
  intros T D E Z0 Lt.
  pose proof (canReusePrevSession_true w account c e T D E Z0 Lt) as C.
  cbv zeta. rewrite (initSession_reuse_run w account st C).
  cbn [fst snd agent accounts trace].
  destruct (moderated_run w account st) as (a' & labs & _ & Ea & Es & Hsvc & _).
  split; [reflexivity|].
  split.
  { unfold resumeCalls. cbn [trace]. rewrite Es. cbn [trace].
    destruct (IS_TEST_USER w (handle account)); reflexivity. }
  split.
  { unfold netCalls at 1. cbn [trace]. fold (netCalls (snd (moderated w account st))).
    apply netCalls_moderated. }
  split.
  { intros Hno. rewrite Es. cbn [trace]. now rewrite Hno. }
  rewrite Ea. unfold withSession. cbn [agentService session].
  repeat split; auto.
Qed.

Lemma initSession_reuses_cached_session_witness :
  netCalls (snd (initSession Sample.offline Sample.alice
                   (Sample.signedOut Sample.offline [Sample.bob])))
  = [] /\
  session (agent (snd (initSession Sample.offline Sample.alice
                         (Sample.signedOut Sample.offline [Sample.bob]))))
  = Some (prevSessionOf Sample.alice).
Proof.
  pose proof (initSession_reuses_cached_session Sample.offline Sample.alice
                (Sample.signedOut Sample.offline [Sample.bob])
                (mkPayload (Some 2000000000%Z)
                   (Some (JsString "com.atproto.access")))
                2000000000%Z eq_refl eq_refl eq_refl) as H.
  cbv zeta in H.
  destruct H as (_ & _ & Hnet & _ & _ & Hsess & _).
  - discriminate.
  - reflexivity.
  - split; [exact Hnet | exact Hsess].
Defined.

(** C4, the claim as stated fails: carol holds a live token and a
    test-user handle, and initSession resolves the moderation authority
    over the network before reusing her session; dave holds a token that
    decodes but carries no exp, and initSession resumes over the network. *)
Lemma initSession_cached_token_can_call_network :
  canReusePrevSession (Sample.online "h.live.s") Sample.carol = true /\
  netCalls (snd (initSession (Sample.online "h.live.s") Sample.carol
                   (Sample.signedOut (Sample.online "h.live.s") [])))
  = [NetResolveHandle "mod-authority.test"] /\
  jwtDecode (Sample.online "h.live.s") (orEmpty (accessJwt Sample.dave))
  = Ok (mkPayload None (Some (JsString "com.atproto.access"))) /\
  netCalls (snd (initSession (Sample.online "h.live.s") Sample.dave
                   (Sample.signedOut (Sample.online "h.live.s") [])))
  = [NetResumeSession "did:plc:D"].
Proof. repeat split. Qed.

(** ** selectAccount and resumeSession *)

(** C1 (what the code does, where the claim asks for a rethrow):
    initSession catches the failure of its own resume attempt, so with
    the provider's initSession selectAccount never sees that failure:
    like resumeSession it completes normally, on its success path, with
    the public agent active and its flag reset.  The catch of
    selectAccount, which resets the flag and throws again where that of
    resumeSession absorbs, acts only on a failure that escapes the
    initSession it was given, and the resume failure is not one. *)
Theorem selectAccount_rethrows_only_what_escapes
    (w : World) (account : SessionAccount) (logContext : string) (st : State) :
  selectAccount w account logContext st =
    (Ok tt, withSwitching false
              (snd (initSession w account (withSwitching true st)))) /\
  resumeSession w (Some account) st =
    (Ok tt, withInitialLoad false (snd (initSession w account st))) /\
  (forall e, canReusePrevSession w account = false ->
     fst (resumeWithRetry w account (withSwitching true st)) = Throw e ->
     fst (selectAccount w account logContext st) = Ok tt /\
     agent (snd (selectAccount w account logContext st)) = PUBLIC_BSKY_AGENT w /\
     isSwitchingAccounts (snd (selectAccount w account logContext st)) = false) /\
  (forall e, canReusePrevSession w account = false ->
     fst (resumeWithRetry w account st) = Throw e ->
     fst (resumeSession w (Some account) st) = Ok tt /\
     agent (snd (resumeSession w (Some account) st)) = PUBLIC_BSKY_AGENT w /\
     isInitialLoad (snd (resumeSession w (Some account) st)) = false) /\
  (forall init e st1,
     init account (withSwitching true st) = (Throw e, st1) ->
     selectAccountWith init account logContext st
     = (Throw e, withSwitching false st1)) /\
  (forall init e st1,
     init account st = (Throw e, st1) ->
     resumeSessionWith init (Some account) st
     = (Ok tt, withInitialLoad false st1)).
Proof.
  assert (Sel : selectAccount w account logContext st =
                (Ok tt, withSwitching false
                   (snd (initSession w account (withSwitching true st))))).
  { unfold selectAccount. rewrite selectAccountWith_run.
    pose proof (initSession_never_throws w account (withSwitching true st)) as N.
    destruct (initSession w account (withSwitching true st)) as [[u|e] s1];
      simpl in N; [reflexivity|discriminate]. }
  assert (Res : resumeSession w (Some account) st =
                (Ok tt, withInitialLoad false (snd (initSession w account st)))).
  { unfold resumeSession. apply resumeSessionWith_run. }
  split; [exact Sel|]. split; [exact Res|].
  split; [|split; [|split]].
  - intros e C F. rewrite Sel. cbn [fst snd].
    rewrite initSession_resume_run by assumption.
    destruct (resumeWithRetry w account (withSwitching true st))
      as [[a2|e2] s2]; simpl in F; [discriminate|].
    rewrite clearCurrentAccount_run. repeat split.
  - intros e C F. rewrite Res. cbn [fst snd].
    rewrite initSession_resume_run by assumption.
    destruct (resumeWithRetry w account st) as [[a2|e2] s2]; simpl in F;
      [discriminate|].
    rewrite clearCurrentAccount_run. repeat split.
  - intros init e st1 E. rewrite selectAccountWith_run. now rewrite E.
  - intros init e st1 E. rewrite resumeSessionWith_run. now rewrite E.
Qed.

(** C1, the code at the failing input: bob has no access token and
    every resume attempt fails, the retry included, yet selectAccount
    completes normally, as resumeSession does. *)
Lemma selectAccount_does_not_rethrow_resume_failure :
  accessJwt Sample.bob = None /\
  fst (resumeWithRetry Sample.offline Sample.bob
         (withSwitching true
            (Sample.signedIn Sample.alice [Sample.alice; Sample.bob])))
  = Throw NetworkError /\
  resumeCalls (snd (selectAccount Sample.offline Sample.bob "SwitchAccount"
                      (Sample.signedIn Sample.alice [Sample.alice; Sample.bob])))
  = 2 /\
  fst (selectAccount Sample.offline Sample.bob "SwitchAccount"
         (Sample.signedIn Sample.alice [Sample.alice; Sample.bob]))
  = Ok tt /\
  fst (resumeSession Sample.offline (Some Sample.bob)
         (Sample.signedIn Sample.alice [Sample.alice; Sample.bob]))
  = Ok tt.
Proof. repeat split. Qed.

Lemma selectAccount_rethrows_only_what_escapes_witness :
  canReusePrevSession Sample.offline Sample.bob = false /\
  fst (resumeWithRetry Sample.offline Sample.bob
         (withSwitching true
            (Sample.signedIn Sample.alice [Sample.alice; Sample.bob])))
  = Throw NetworkError /\
  fst (selectAccount Sample.offline Sample.bob "SwitchAccount"
         (Sample.signedIn Sample.alice [Sample.alice; Sample.bob]))
  = Ok tt /\
  agent (snd (selectAccount Sample.offline Sample.bob "SwitchAccount"
                (Sample.signedIn Sample.alice [Sample.alice; Sample.bob])))
  = PUBLIC_BSKY_AGENT Sample.offline /\
  isSwitchingAccounts
    (snd (selectAccount Sample.offline Sample.bob "SwitchAccount"
            (Sample.signedIn Sample.alice [Sample.alice; Sample.bob])))
  = false.
Proof.
  split; [reflexivity|]. split; [reflexivity|].
  exact (proj1 (proj2 (proj2
    (selectAccount_rethrows_only_what_escapes Sample.offline Sample.bob
       "SwitchAccount"
       (Sample.signedIn Sample.alice [Sample.alice; Sample.bob]))))
    NetworkError eq_refl eq_refl).
Defined.

(** ** Reconciliation *)

Lemma onUpdate_run (w : World) (p : PersistedSession) (st : State)
    (cur : option SessionAccount) :
  currentAccount w st = Ok cur ->
  onUpdate w p st =
  match p_currentAccount p with
  | Some pc =>
      if truthy (refreshJwt pc) then
        if negb (optDidEq (Some (did pc)) (option_map did cur))
        then initSession w pc (withAccounts (p_accounts p) st)
        else (Ok tt, withAgent (withSession (agent st)
                                  (sessionAccountToAgentSession pc))
                       (withAccounts (p_accounts p) st))
      else (Ok tt, withAccounts (p_accounts p) st)
  | None =>
      match cur with
      | Some _ => clearCurrentAccount w (withAccounts (p_accounts p) st)
      | None => (Ok tt, withAccounts (p_accounts p) st)
      end
  end.
Proof.
  unfold currentAccount. intros C. unfold onUpdate.
  unfold bind at 1. unfold gets at 1. unfold bind at 1. unfold liftRes at 1.
  rewrite C. unfold bind at 1. unfold setAccounts at 1, modify at 1.
  fold (withAccounts (p_accounts p) st).
  destruct (p_currentAccount p) as [pc|].
  - destruct (truthy (refreshJwt pc)); [|reflexivity].
    destruct (negb _); reflexivity.
  - destruct cur; reflexivity.
Qed.

Lemma optDidEq_spec (a b : option string) : optDidEq a b = true <-> a = b.
Proof.
  destruct a as [x|], b as [y|]; simpl; split; try congruence.
  - intros H. apply String.eqb_eq in H. now subst.
  - intros [= ->]. apply String.eqb_refl.
Qed.

(** C5 (as the code has it): after replacing the roster by the persisted
    one, the subscription does the following.  The persisted current
    account carries a refresh token: if its id is not the id of the
    in-memory current account, initSession runs on it; if it is, its
    tokens become the session of the active agent, with no remote call.
    The persisted current account carries no refresh token: nothing
    more, whatever its id.  There is no persisted current account: if
    there is one in memory, clearCurrentAccount runs; otherwise nothing
    more. *)
Theorem onUpdate_precedence
    (w : World) (p : PersistedSession) (st : State)
    (cur : option SessionAccount) :
  currentAccount w st = Ok cur ->
  let st0 := withAccounts (p_accounts p) st in
  (forall pc, p_currentAccount p = Some pc ->
     truthy (refreshJwt pc) = true ->
     option_map did cur <> Some (did pc) ->
     onUpdate w p st = initSession w pc st0) /\
  (forall pc, p_currentAccount p = Some pc ->
     truthy (refreshJwt pc) = true ->
     option_map did cur = Some (did pc) ->
     onUpdate w p st =
       (Ok tt, withAgent (withSession (agent st)
                            (sessionAccountToAgentSession pc)) st0) /\
     trace (snd (onUpdate w p st)) = trace st) /\
  (forall pc, p_currentAccount p = Some pc ->
     truthy (refreshJwt pc) = false ->
     onUpdate w p st = (Ok tt, st0)) /\
  (p_currentAccount p = None -> cur <> None ->
     onUpdate w p st = clearCurrentAccount w st0 /\
     agent (snd (onUpdate w p st)) = PUBLIC_BSKY_AGENT w /\
     accounts (snd (onUpdate w p st)) = p_accounts p) /\
  (p_currentAccount p = None -> cur = None ->
     onUpdate w p st = (Ok tt, st0)).
Proof.
  intros C. cbv zeta. rewrite (onUpdate_run w p st cur C).
  split; [|split; [|split; [|split]]].
  - intros pc -> T Hne. rewrite T.
    destruct (optDidEq (Some (did pc)) (option_map did cur)) eqn:E;
      [|reflexivity].
    apply optDidEq_spec in E. congruence.
  - intros pc -> T He. rewrite T.
    assert (E : optDidEq (Some (did pc)) (option_map did cur) = true)
      by (apply optDidEq_spec; congruence).
    rewrite E. simpl. split; reflexivity.
  - intros pc -> T. now rewrite T.
  - intros -> Hc. destruct cur; [|congruence].
    rewrite clearCurrentAccount_run. repeat split.
  - intros -> ->. reflexivity.
Qed.

Lemma onUpdate_precedence_witness :
  onUpdate Sample.offline (mkPersisted [Sample.bob] None)
    (Sample.signedIn Sample.alice [Sample.alice; Sample.bob])
  = clearCurrentAccount Sample.offline
      (withAccounts [Sample.bob]
         (Sample.signedIn Sample.alice [Sample.alice; Sample.bob])).
Proof.
  pose proof (onUpdate_precedence Sample.offline (mkPersisted [Sample.bob] None)
                (Sample.signedIn Sample.alice [Sample.alice; Sample.bob])
                (Some Sample.alice) eq_refl) as H.
  cbv zeta in H. destruct H as (_ & _ & _ & H & _).
  apply H; [reflexivity | discriminate].
Defined.

(** C5, the claim as stated fails: the persisted current account is bob,
    the in-memory one is alice, and bob carries no refresh token; the
    subscription replaces the roster and stops, where initSession on bob
    would have gone to the network. *)
Lemma onUpdate_other_id_without_refresh_token :
  did Sample.bob <> did Sample.alice /\
  currentAccount Sample.offline
    (Sample.signedIn Sample.alice [Sample.alice])
  = Ok (Some Sample.alice) /\
  onUpdate Sample.offline (mkPersisted [Sample.alice; Sample.bob] (Some Sample.bob))
    (Sample.signedIn Sample.alice [Sample.alice])
  = (Ok tt, withAccounts [Sample.alice; Sample.bob]
              (Sample.signedIn Sample.alice [Sample.alice])) /\
  resumeCalls (snd (initSession Sample.offline Sample.bob
                      (withAccounts [Sample.alice; Sample.bob]
                         (Sample.signedIn Sample.alice [Sample.alice]))))
  = 2 /\
  resumeCalls (snd (onUpdate Sample.offline
                      (mkPersisted [Sample.alice; Sample.bob] (Some Sample.bob))
                      (Sample.signedIn Sample.alice [Sample.alice])))
  = 0.
Proof. repeat split. discriminate. Qed.

(** ** createAccount *)

Lemma adoptAgent_run (w : World) (a : BskyAgent) (account : SessionAccount)
    (s : State) :
  exists s', adoptAgent w a account s = (Ok tt, s') /\ trace s' =
    ((if IS_TEST_USER w (handle account)
      then [NetResolveHandle TEST_MOD_AUTHORITY] else []) ++ trace s)%list.
Proof.
  unfold adoptAgent. unfold bind at 1.
  destruct (configureModeration_run w a account s) as (a' & labs & E & _).
  rewrite E. eexists. split; reflexivity.
Qed.

Lemma adoptAgent_upsertProfile (w : World) (f : list Event -> Res unit)
    (a : BskyAgent) (account : SessionAccount) (s : State) :
  adoptAgent (withUpsertProfile w f) a account s = adoptAgent w a account s.
Proof. reflexivity. Qed.

Lemma isSessionDeactivated_upsertProfile (w : World)
    (f : list Event -> Res unit) (t : option string) :
  isSessionDeactivated (withUpsertProfile w f) t = isSessionDeactivated w t.
Proof. reflexivity. Qed.

Lemma createAccount_run (w : World) (props : CreateAccountProps) (s : State) :
  createAccount w props s =
  match agent_createAccount w (trace s) props with
  | Throw e => (Throw e, createEmitted props s)
  | Ok None =>
      (Throw (Error "session: createAccount failed to establish a session"),
       createEmitted props s)
  | Ok (Some sd) =>
      match isSessionDeactivated w (Some (sess_accessJwt sd)) with
      | Throw e => (Throw e, createEmitted props s)
      | Ok d =>
          adoptAgent w (mkAgent (ca_service props) (Some sd) [])
            (mkAccount (serviceToString w (ca_service props))
               (sess_did sd) (sess_handle sd) (sess_email sd)
               (sess_emailConfirmed sd) (Some d)
               (Some (sess_refreshJwt sd)) (Some (sess_accessJwt sd)))
            (if d then createEmitted props s
             else profileEmitted (createEmitted props s))
      end
  end.
Proof.
  unfold createAccount.
  unfold bind at 1. unfold gets at 1. unfold bind at 1.
  unfold emit at 1, modify at 1. fold (createEmitted props s).
  unfold bind at 1. unfold liftRes at 1.
  destruct (agent_createAccount w (trace s) props) as [[sd|]|e];
    try reflexivity.
  unfold bind at 1. unfold liftRes at 1.
  unfold agentToSessionAccount. cbn [session agentService].
  destruct (isSessionDeactivated w (Some (sess_accessJwt sd))) as [d|e];
    [|reflexivity].
  destruct d; reflexivity.
Qed.

Lemma upsertProfileCalls_cons (e : Event) (s s' : State) :
  trace s' = e :: trace s ->
  upsertProfileCalls s' =
  (if isUpsertProfileCall e then 1 else 0) + upsertProfileCalls s.
Proof.
  unfold upsertProfileCalls. intros ->. simpl.
  destruct (isUpsertProfileCall e); reflexivity.
Qed.

Lemma isSessionDeactivated_decoded (w : World) (t : string) (c : JwtPayload) :
  t <> "" -> jwtDecode w t = Ok c ->
  isSessionDeactivated w (Some t) = Ok (isDeactivatedScope (scope c)).
Proof.
  intros Ht D. unfold isSessionDeactivated. apply truthy_Some in Ht.
  rewrite Ht. cbn [orEmpty]. now rewrite D.
Qed.

(** C9: let the protocol call of createAccount return a session.  If its
    access token decodes to claims whose scope is the deactivation
    scope, createAccount completes and no upsertProfile call is issued:
    the calls made are the account creation and, for a test handle, the
    handle resolution of the moderation set-up.  If the token is empty
    or decodes to claims with another scope, or none, exactly one
    upsertProfile call is issued, right after the account creation, and
    createAccount completes whatever that call answers, a rejection
    included.  In all cases the result and final state of createAccount
    do not depend on the answer of upsertProfile, and createAccount
    completes exactly when the token is empty or decodes. *)
Theorem createAccount_profile_call
    (w : World) (props : CreateAccountProps) (st : State)
    (sd : AtpSessionData) :
  agent_createAccount w (trace st) props = Ok (Some sd) ->
  let s1 := snd (createAccount w props st) in
  let created := NetCreateAccount (ca_service props) (ca_handle props) in
  let moderation :=
    if IS_TEST_USER w (sess_handle sd)
    then [NetResolveHandle "mod-authority.test"] else [] in
  (forall c,
     sess_accessJwt sd <> "" ->
     jwtDecode w (sess_accessJwt sd) = Ok c ->
     scope c = Some (JsString "com.atproto.deactivated") ->
     fst (createAccount w props st) = Ok tt /\
     trace s1 = (moderation ++ created :: trace st)%list /\
     upsertProfileCalls s1 = upsertProfileCalls st) /\
  (sess_accessJwt sd = "" \/
   (exists c, jwtDecode w (sess_accessJwt sd) = Ok c /\
              scope c <> Some (JsString "com.atproto.deactivated")) ->
     fst (createAccount w props st) = Ok tt /\
     trace s1 = (moderation ++ NetUpsertProfile :: created :: trace st)%list /\
     upsertProfileCalls s1 = S (upsertProfileCalls st) /\
     (forall f,
        fst (createAccount (withUpsertProfile w f) props st) = Ok tt)) /\
  (forall f, createAccount (withUpsertProfile w f) props st
             = createAccount w props st) /\
  (fst (createAccount w props st) = Ok tt <->
     sess_accessJwt sd = "" \/
     exists c, jwtDecode w (sess_accessJwt sd) = Ok c).
Proof.
  intros Hc. cbv zeta. fold TEST_MOD_AUTHORITY. fold DEACTIVATED_SCOPE.
  assert (Indep : forall f, createAccount (withUpsertProfile w f) props st
                            = createAccount w props st).
  { intros f. rewrite !createAccount_run. reflexivity. }
  assert (Run : forall d,
            isSessionDeactivated w (Some (sess_accessJwt sd)) = Ok d ->
            fst (createAccount w props st) = Ok tt /\
            trace (snd (createAccount w props st)) =
              ((if IS_TEST_USER w (sess_handle sd)
                then [NetResolveHandle TEST_MOD_AUTHORITY] else [])
               ++ (if d then [] else [NetUpsertProfile])
               ++ NetCreateAccount (ca_service props) (ca_handle props)
               :: trace st)%list).
  { intros d Hd. rewrite createAccount_run, Hc, Hd.
    match goal with
    | |- context [adoptAgent w ?a ?acc ?s] =>
        destruct (adoptAgent_run w a acc s) as (s' & E & T); rewrite E
    end.
    cbn [fst snd]. split; [reflexivity|]. rewrite T. cbn [handle].
    destruct d; reflexivity. }
  assert (Count : forall pre rest,
            length (filter isUpsertProfileCall
                      ((if IS_TEST_USER w (sess_handle sd)
                        then [NetResolveHandle TEST_MOD_AUTHORITY] else [])
                       ++ pre ++ rest))
            = length (filter isUpsertProfileCall pre)
              + length (filter isUpsertProfileCall rest)).
  { intros pre rest. rewrite !filter_app, !length_app.
    destruct (IS_TEST_USER w (sess_handle sd)); reflexivity. }
  split; [|split; [|split]].
  - intros c Ht D Sc.
    assert (Hd : isSessionDeactivated w (Some (sess_accessJwt sd)) = Ok true).
    { rewrite (isSessionDeactivated_decoded w _ c Ht D).
      f_equal. now apply isDeactivatedScope_spec. }
    destruct (Run true Hd) as (R1 & R2).
    split; [exact R1|]. split; [exact R2|].
    unfold upsertProfileCalls. rewrite R2. rewrite Count. reflexivity.
  - intros Hnot.
    assert (Hd : isSessionDeactivated w (Some (sess_accessJwt sd)) = Ok false).
    { destruct Hnot as [E|(c & D & N)].
      - rewrite E. reflexivity.
      - destruct (String.eqb_spec (sess_accessJwt sd) "") as [E|Ht].
        + rewrite E. reflexivity.
        + rewrite (isSessionDeactivated_decoded w _ c Ht D). f_equal.
          destruct (isDeactivatedScope (scope c)) eqn:X; [|reflexivity].
          apply isDeactivatedScope_spec in X. contradiction. }
    destruct (Run false Hd) as (R1 & R2).
    split; [exact R1|]. split; [exact R2|].
    split.
    + unfold upsertProfileCalls. rewrite R2. rewrite Count. reflexivity.
    + intros f. now rewrite Indep.
  - exact Indep.
  - split.
    + intros Hok. rewrite createAccount_run, Hc in Hok.
      destruct (String.eqb_spec (sess_accessJwt sd) "") as [E|Ht]; [now left|].
      right. destruct (jwtDecode w (sess_accessJwt sd)) as [c|e] eqn:D;
        [eauto|].
      unfold isSessionDeactivated in Hok. apply truthy_Some in Ht.
      rewrite Ht in Hok. cbn [orEmpty] in Hok. rewrite D in Hok. discriminate.
    + intros [E|(c & D)].
      * apply (Run false). rewrite E. reflexivity.
      * destruct (String.eqb_spec (sess_accessJwt sd) "") as [E|Ht].
        -- apply (Run false). rewrite E. reflexivity.
        -- apply (Run (isDeactivatedScope (scope c))).
           now apply isSessionDeactivated_decoded.
Qed.

Lemma createAccount_profile_call_witness :
  (fst (createAccount (Sample.online "h.deactivated.s") Sample.props
          (Sample.signedOut (Sample.online "h.deactivated.s") []))
   = Ok tt /\
   upsertProfileCalls
     (snd (createAccount (Sample.online "h.deactivated.s") Sample.props
             (Sample.signedOut (Sample.online "h.deactivated.s") [])))
   = 0) /\
  (fst (createAccount
          (withUpsertProfile (Sample.online "h.live.s")
             (fun _ => Throw NetworkError))
          Sample.props (Sample.signedOut (Sample.online "h.live.s") []))
   = Ok tt /\
   upsertProfileCalls
     (snd (createAccount (Sample.online "h.live.s") Sample.props
             (Sample.signedOut (Sample.online "h.live.s") [])))
   = 1).
Proof.
  split.
  - destruct (proj1
      (createAccount_profile_call (Sample.online "h.deactivated.s")
         Sample.props (Sample.signedOut (Sample.online "h.deactivated.s") [])
         (Sample.sessionFor "erin.ex.app" "h.deactivated.s") eq_refl)
      (mkPayload (Some 2000000000%Z)
         (Some (JsString "com.atproto.deactivated"))))
      as (Hok & _ & Hn).
    + discriminate.
    + reflexivity.
    + reflexivity.
    + split; [exact Hok | exact Hn].
  - destruct (proj1 (proj2
      (createAccount_profile_call (Sample.online "h.live.s")
         Sample.props (Sample.signedOut (Sample.online "h.live.s") [])
         (Sample.sessionFor "erin.ex.app" "h.live.s") eq_refl)))
      as (_ & _ & Hn & Hf).
    + right. exists (mkPayload (Some 2000000000%Z)
                       (Some (JsString "com.atproto.access"))).
      split; [reflexivity|discriminate].
    + split; [exact (Hf (fun _ => Throw NetworkError)) | exact Hn].
Defined.

(** ** Distinct roster ids across all operations *)

Lemma adoptAgent_accounts (w : World) (a : BskyAgent) (account : SessionAccount)
    (s : State) :
  accounts (snd (adoptAgent w a account s))
  = account :: filter (otherThan account) (accounts s).
Proof.
  unfold adoptAgent. unfold bind at 1.
  destruct (configureModeration_run w a account s) as (a' & labs & E & _).
  now rewrite E.
Qed.

Lemma createAccount_upserted (w : World) (props : CreateAccountProps) (s : State) :
  upserted (accounts s) (accounts (snd (createAccount w props s))).
Proof.
  rewrite createAccount_run.
  destruct (agent_createAccount w (trace s) props) as [[sd|]|e];
    try apply upserted_refl.
  destruct (isSessionDeactivated w (Some (sess_accessJwt sd))) as [d|e];
    try apply upserted_refl.
  rewrite adoptAgent_accounts.
  destruct d; apply upserted_step, upserted_refl.
Qed.

Lemma login_upserted (w : World) (props : LoginProps) (logContext : string)
    (s : State) :
  upserted (accounts s) (accounts (snd (login w props logContext s))).
Proof.
  unfold login.
  unfold bind at 1. unfold gets at 1. unfold bind at 1.
  unfold emit at 1, modify at 1. unfold bind at 1. unfold liftRes at 1.
  destruct (agent_login w (trace s) props) as [[sd|]|e];
    try apply upserted_refl.
  unfold bind at 1. unfold liftRes at 1.
  unfold agentToSessionAccount. cbn [session agentService].
  destruct (isSessionDeactivated w (Some (sess_accessJwt sd))) as [d|e];
    try apply upserted_refl.
  rewrite adoptAgent_accounts. apply upserted_step, upserted_refl.
Qed.

Lemma initSession_upserted (w : World) (account : SessionAccount) (s : State) :
  upserted (accounts s) (accounts (snd (initSession w account s))).
Proof.
  destruct (canReusePrevSession w account) eqn:C.
  - rewrite initSession_reuse_run by assumption.
    apply upserted_step, upserted_refl.
  - rewrite initSession_resume_run by assumption.
    pose proof (resumeWithRetry_upserted w account s) as U.
    destruct (resumeWithRetry w account s) as [[a2|e] s2]; exact U.
Qed.

Lemma perform_keeps_distinct (w : World) (op : Operation) (st : State) :
  NoDup (dids (accounts st)) -> wellFormed op ->
  NoDup (dids (accounts (snd (perform w op st)))).
Proof.
  intros N WF. destruct op; cbn [perform].
  - eapply upserted_NoDup; [apply createAccount_upserted | exact N].
  - eapply upserted_NoDup; [apply login_upserted | exact N].
  - run. now rewrite dids_clearTokens.
  - exact N.
  - eapply upserted_NoDup; [apply initSession_upserted | exact N].
  - destruct account as [a|].
    + unfold resumeSession. rewrite resumeSessionWith_run. cbn [snd].
      eapply upserted_NoDup; [apply initSession_upserted | exact N].
    + exact N.
  - run. now apply NoDup_dids_others.
  - unfold selectAccount. rewrite selectAccountWith_run.
    pose proof (initSession_upserted w account (withSwitching true st)) as U.
    destruct (initSession w account (withSwitching true st)) as [[u|e] s1];
      cbn [snd] in *; eapply upserted_NoDup; eauto.
  - eapply upserted_NoDup; [apply quiet_persistSession | exact N].
  - cbn [wellFormed] in WF.
    destruct (currentAccount w st) as [cur|e] eqn:C.
    + rewrite (onUpdate_run w persistedSession st cur C).
      destruct (p_currentAccount persistedSession) as [pc|].
      * destruct (truthy (refreshJwt pc)); [|exact WF].
        destruct (negb _); [|exact WF].
        eapply upserted_NoDup; [apply initSession_upserted | exact WF].
      * destruct cur; exact WF.
    + unfold onUpdate, currentAccount in *.
      unfold bind at 1. unfold gets at 1. unfold bind at 1.
      unfold liftRes at 1. rewrite C. exact N.
Qed.

(** C8: from a roster with pairwise-distinct ids, upsertAccount leaves
    pairwise-distinct ids, with exactly one entry for the upserted id,
    namely the supplied account, at the front, followed by the other
    entries in their former order; upserting the same id again with other
    values leaves the later values at the front and the same tail.  And
    every operation of [perform], run from such a roster, ends with
    pairwise-distinct ids (a snapshot read by the subscription being one
    whose own roster has distinct ids). *)
Theorem upsertAccount_unique_front
    (w : World) (account : SessionAccount) (st : State) :
  NoDup (dids (accounts st)) ->
  let st1 := snd (upsertAccount account st) in
  fst (upsertAccount account st) = Ok tt /\
  NoDup (dids (accounts st1)) /\
  length (filter (fun a => sameDid a account) (accounts st1)) = 1 /\
  hd_error (accounts st1) = Some account /\
  tl (accounts st1) = filter (otherThan account) (accounts st) /\
  (forall a, In a (accounts st) -> did a <> did account ->
             In a (accounts st1)) /\
  (forall again, did again = did account ->
     let st2 := snd (upsertAccount again st1) in
     accounts st2 = again :: filter (otherThan account) (accounts st) /\
     NoDup (dids (accounts st2)) /\
     length (filter (fun a => sameDid a again) (accounts st2)) = 1) /\
  (forall op, wellFormed op ->
     NoDup (dids (accounts (snd (perform w op st))))).
Proof.
  intros H. rewrite upsertAccount_run. cbn [fst snd accounts hd_error tl].
  assert (One : forall a l, length (filter (fun x => sameDid x a)
                    (a :: filter (otherThan a) l)) = 1).
  { intros a l. simpl. unfold sameDid at 1. rewrite String.eqb_refl. simpl.
    now rewrite same_in_others_nil. }
  assert (Again : forall again, did again = did account ->
            again :: filter (otherThan again)
                       (account :: filter (otherThan account) (accounts st))
            = again :: filter (otherThan again) (accounts st)).
  { intros again E. rewrite (others_idempotent account again) by assumption.
    f_equal. apply filter_ext. intro a. unfold otherThan, sameDid.
    now rewrite E. }
  split; [reflexivity|].
  split; [now apply NoDup_dids_upsert|].
  split; [apply One|].
  split; [reflexivity|].
  split; [reflexivity|].
  split; [intros a Hin Hne; right; now apply others_keeps_order|].
  split.
  - intros again E. rewrite upsertAccount_run. cbn [snd accounts].
    rewrite (Again again E). repeat split.
    + f_equal. apply filter_ext. intro a. unfold otherThan, sameDid.
      now rewrite E.
    + now apply NoDup_dids_upsert.
    + apply One.
  - intros op WF. now apply perform_keeps_distinct.
Qed.

Lemma upsertAccount_unique_front_witness :
  NoDup (dids [Sample.alice; Sample.bob]) /\
  hd_error (accounts (snd (upsertAccount Sample.bobAgain
              (Sample.signedIn Sample.alice [Sample.alice; Sample.bob]))))
  = Some Sample.bobAgain.
Proof.
  assert (N : NoDup (dids [Sample.alice; Sample.bob])).
  { simpl. repeat constructor; simpl; intuition discriminate. }
  split; [exact N|].
  exact (proj1 (proj2 (proj2 (proj2
    (upsertAccount_unique_front Sample.offline Sample.bobAgain
       (Sample.signedIn Sample.alice [Sample.alice; Sample.bob]) N))))).
Defined.


(** * Further properties of the provider *)

(** ** Token inspection, exactly *)

(** X1: isSessionDeactivated answers true exactly for a non-empty token
    that decodes to claims whose scope is the string
    'com.atproto.deactivated'; it answers false exactly for an undefined
    or empty token and for a token that decodes to claims with any other
    scope, or none; and it throws exactly the decoder's exception on a
    non-empty token that does not decode. *)
Theorem isSessionDeactivated_exactly (w : World) (t : option string) :
  (isSessionDeactivated w t = Ok true <->
     exists s c, t = Some s /\ s <> "" /\ jwtDecode w s = Ok c /\
                 scope c = Some (JsString "com.atproto.deactivated")) /\
  (isSessionDeactivated w t = Ok false <->
     truthy t = false \/
     exists s c, t = Some s /\ jwtDecode w s = Ok c /\
                 scope c <> Some (JsString "com.atproto.deactivated")) /\
  (forall e, isSessionDeactivated w t = Throw e <->
     exists s, t = Some s /\ s <> "" /\ jwtDecode w s = Throw e).
Proof.
  fold DEACTIVATED_SCOPE. unfold isSessionDeactivated.
  destruct (truthy t) eqn:T.
  - destruct t as [s|]; [|discriminate]. simpl.
    assert (Hs : s <> "") by now apply truthy_Some.
    destruct (jwtDecode w s) as [c|e0] eqn:D.
    + destruct (isDeactivatedScope (scope c)) eqn:S.
      * apply isDeactivatedScope_spec in S.
        split; [|split].
        -- split; [intros _; exists s, c; auto|reflexivity].
        -- split; [discriminate|].
           intros [F|(s' & c' & [= <-] & D' & N)]; [discriminate|].
           rewrite D in D'. injection D' as <-. contradiction.
        -- intros e. split; [discriminate|].
           intros (s' & [= <-] & _ & D'). congruence.
      * assert (N : scope c <> Some (JsString DEACTIVATED_SCOPE)).
        { intros E. apply isDeactivatedScope_spec in E. congruence. }
        split; [|split].
        -- split; [discriminate|].
           intros (s' & c' & [= <-] & _ & D' & E).
           rewrite D in D'. injection D' as <-. contradiction.
        -- split; [intros _; right; exists s, c; auto|reflexivity].
        -- intros e. split; [discriminate|].
           intros (s' & [= <-] & _ & D'). congruence.
    + split; [|split].
      * split; [discriminate|].
        intros (s' & c' & [= <-] & _ & D' & _). congruence.
      * split; [discriminate|].
        intros [F|(s' & c' & [= <-] & D' & _)]; [discriminate|congruence].
      * intros e. split.
        -- intros [= <-]. exists s. auto.
        -- intros (s' & [= <-] & _ & D'). congruence.
  - split; [|split].
    + split; [discriminate|].
      intros (s & c & -> & Hs & _). apply truthy_Some in Hs. congruence.
    + split; [auto|reflexivity].
    + intros e. split; [discriminate|].
      intros (s & -> & Hs & _). apply truthy_Some in Hs. congruence.
Qed.

(** ** initSession and the network *)

Lemma canReusePrevSession_spec (w : World) (account : SessionAccount) :
  canReusePrevSession w account = true <->
  exists t c e, accessJwt account = Some t /\ t <> "" /\
                jwtDecode w t = Ok c /\ exp c = Some e /\
                e <> 0%Z /\ (dateNow w < e * 1000)%Z.
Proof.
  split.
  - unfold canReusePrevSession.
    destruct (truthy (accessJwt account)) eqn:T; [|discriminate].
    destruct (accessJwt account) as [t|]; [|discriminate]. simpl.
    destruct (jwtDecode w t) as [c|] eqn:D; [|discriminate].
    destruct (exp c) as [e|] eqn:E; [|discriminate].
    destruct (Z.eqb_spec e 0); [discriminate|].
    destruct (Z.geb_spec (dateNow w) (e * 1000)); [discriminate|].
    intros _. exists t, c, e. repeat split; auto.
    now apply truthy_Some.
  - intros (t & c & e & A & Ht & D & E & Z0 & Lt).
    apply (canReusePrevSession_true w account c e); auto.
    + rewrite A. now apply truthy_Some.
    + now rewrite A.
Qed.

Lemma initSession_resume_calls (w : World) (account : SessionAccount) (st : State) :
  canReusePrevSession w account = false ->
  resumeCalls st < resumeCalls (snd (initSession w account st)).
Proof.
  intros C. rewrite initSession_resume_run by assumption.
  pose proof (resumeWithRetry_calls w account st) as Hn. cbv zeta in Hn.
  assert (L : resumeCalls st < resumeCalls (snd (resumeWithRetry w account st))).
  { rewrite Hn. destruct (fst (resumeAttempt w account _ _)) as [a|e];
      [|destruct (isNetworkError e)]; lia. }
  destruct (resumeWithRetry w account st) as [[a2|e] s2]; exact L.
Qed.

Lemma initSession_reuse_calls (w : World) (account : SessionAccount) (st : State) :
  canReusePrevSession w account = true ->
  resumeCalls (snd (initSession w account st)) = resumeCalls st.
Proof.
  intros C. rewrite initSession_reuse_run by assumption.
  unfold resumeCalls. cbn [snd trace].
  fold (resumeCalls (snd (moderated w account st))).
  apply resumeCalls_moderated.
Qed.

(** X2: initSession resumes over the network exactly when the cached
    access token cannot be reused, and it can be reused exactly when it
    is a non-empty string that decodes to claims with a non-zero exp
    lying strictly ahead of the clock: a token without exp, with exp 0,
    or expiring at this very millisecond is resumed. *)
Theorem initSession_network_exactly
    (w : World) (account : SessionAccount) (st : State) :
  (resumeCalls (snd (initSession w account st)) = resumeCalls st <->
     exists t c e, accessJwt account = Some t /\ t <> "" /\
                   jwtDecode w t = Ok c /\ exp c = Some e /\
                   e <> 0%Z /\ (dateNow w < e * 1000)%Z) /\
  (forall t c, accessJwt account = Some t -> jwtDecode w t = Ok c ->
     exp c = None \/ exp c = Some 0%Z \/
     exp c = Some (dateNow w / 1000)%Z /\ (dateNow w mod 1000 = 0)%Z ->
     resumeCalls st < resumeCalls (snd (initSession w account st))).
Proof.
  split.
  - rewrite <- canReusePrevSession_spec. split.
    + intros E. destruct (canReusePrevSession w account) eqn:C; auto.
      pose proof (initSession_resume_calls w account st C). lia.
    + apply initSession_reuse_calls.
  - intros t c A D Hexp. apply initSession_resume_calls.
    destruct (canReusePrevSession w account) eqn:C; auto.
    apply canReusePrevSession_spec in C.
    destruct C as (t' & c' & e & A' & _ & D' & E & Z0 & Lt).
    rewrite A in A'. injection A' as <-. rewrite D in D'. injection D' as <-.
    destruct Hexp as [N|[Z1|[X M]]]; try congruence.
    rewrite E in X. injection X as ->.
    pose proof (Z.div_mod (dateNow w) 1000). lia.
Qed.

(** ** Accounts and sessions *)

(** X3: an account derived from an agent gives back the agent's session:
    when agentToSessionAccount yields an account, turning that account
    into a session yields exactly the session the agent holds, the
    account's service is the agent's, both of its tokens are present,
    and its deactivated mark is what the access token inspects to. *)
Theorem agentToSessionAccount_round_trip
    (w : World) (a : BskyAgent) (account : SessionAccount) :
  agentToSessionAccount w a = Ok (Some account) ->
  session a = Some (sessionAccountToAgentSession account) /\
  service account = serviceToString w (agentService a) /\
  (exists r t, refreshJwt account = Some r /\ accessJwt account = Some t /\
               isSessionDeactivated w (Some t) = Ok
                 (match deactivated account with Some b => b | None => false end)).
Proof.
  unfold agentToSessionAccount. destruct (session a) as [s|]; [|discriminate].
  destruct (isSessionDeactivated w (Some (sess_accessJwt s))) as [d|e] eqn:D;
    [|discriminate].
  intros [= <-]. split; [|split].
  - destruct s; reflexivity.
  - reflexivity.
  - exists (sess_refreshJwt s), (sess_accessJwt s). auto.
Qed.

Lemma agentToSessionAccount_round_trip_witness :
  session (agent (Sample.signedIn Sample.alice []))
  = Some (sessionAccountToAgentSession Sample.alice).
Proof.
  exact (proj1 (agentToSessionAccount_round_trip Sample.offline
                  (agent (Sample.signedIn Sample.alice [])) Sample.alice
                  eq_refl)).
Defined.

(** ** Sign-out, partial and full *)

Lemma canReusePrevSession_clearTokens (w : World) (a : SessionAccount) :
  canReusePrevSession w (clearTokens a) = false.
Proof. reflexivity. Qed.

(** X4: after logout no roster entry can be reused: for every account
    then in the roster the cached-token check fails, the session
    initSession would send for it carries empty tokens, and initSession
    on it, from any state, makes a resume call. *)
Theorem logout_forces_resume
    (w : World) (logContext : string) (st : State) (a : SessionAccount) :
  In a (accounts (snd (logout w logContext st))) ->
  canReusePrevSession w a = false /\
  sess_accessJwt (prevSessionOf a) = "" /\
  sess_refreshJwt (prevSessionOf a) = "" /\
  (forall st', resumeCalls st' < resumeCalls (snd (initSession w a st'))).
Proof.
  intros Hin.
  assert (E : exists b, a = clearTokens b).
  { revert Hin. run. intros Hin. apply in_map_iff in Hin.
    destruct Hin as (b & Hb & _). eauto. }
  destruct E as (b & ->).
  split; [reflexivity|]. split; [reflexivity|]. split; [reflexivity|].
  intros st'. now apply initSession_resume_calls.
Qed.

Lemma logout_forces_resume_witness :
  canReusePrevSession Sample.offline (clearTokens Sample.alice) = false /\
  resumeCalls (Sample.signedOut Sample.offline [])
  < resumeCalls (snd (initSession Sample.offline (clearTokens Sample.alice)
                        (Sample.signedOut Sample.offline []))).
Proof.
  pose proof (logout_forces_resume Sample.offline "Settings"
                (Sample.signedIn Sample.alice [Sample.alice; Sample.bob])
                (clearTokens Sample.alice) (or_introl eq_refl)) as H.
  destruct H as (C & _ & _ & R).
  split; [exact C | exact (R (Sample.signedOut Sample.offline []))].
Defined.

(** X5: clearCurrentAccount leaves the roster, tokens included, exactly
    as it was, emits nothing and calls nothing; afterwards there is no
    session, the next update is persisted, and doing it again changes
    nothing.  logout ends in the same state except that the roster has
    its tokens cleared. *)
Theorem clearCurrentAccount_keeps_roster (w : World) (st : State) :
  let s1 := snd (clearCurrentAccount w st) in
  accounts s1 = accounts st /\
  trace s1 = trace st /\
  isInitialLoad s1 = isInitialLoad st /\
  isSwitchingAccounts s1 = isSwitchingAccounts st /\
  hasSession w s1 = Ok false /\
  isDirty s1 = true /\
  clearCurrentAccount w s1 = (Ok tt, s1) /\
  (forall logContext,
     snd (logout w logContext st)
     = withAccounts (map clearTokens (accounts st)) s1) /\
  (forall logContext,
     snd (logout w logContext s1) = snd (logout w logContext st)).
Proof.
  cbv zeta. rewrite clearCurrentAccount_run. repeat split.
Qed.

(** ** removeAccount *)

Lemma filter_otherThan_absent (account : SessionAccount)
    (l : list SessionAccount) :
  ~ In (did account) (dids l) -> filter (otherThan account) l = l.
Proof.
  induction l as [|a l IH]; simpl; auto.
  intros H. unfold otherThan at 1, sameDid.
  destruct (String.eqb_spec (did a) (did account)) as [E|N]; simpl.
  - exfalso. apply H. now left.
  - f_equal. apply IH. intros X. apply H. now right.
Qed.

Lemma filter_otherThan_length (account : SessionAccount)
    (l : list SessionAccount) :
  NoDup (dids l) -> In (did account) (dids l) ->
  S (length (filter (otherThan account) l)) = length l.
Proof.
  induction l as [|a l IH]; simpl; [intros _ []|].
  intros N H. inversion N as [|x xs Hnot N' ]; subst.
  unfold otherThan at 1, sameDid.
  destruct (String.eqb_spec (did a) (did account)) as [E|Ne]; simpl.
  - f_equal. rewrite filter_otherThan_absent; auto. now rewrite <- E.
  - f_equal. apply IH; auto. destruct H; [contradiction|assumption].
Qed.

(** X6: removeAccount deletes exactly the roster entries with the given
    id, keeping the others in their order; it leaves the active agent
    alone, so removing the current account leaves it current; it makes
    no remote call; removing an id that is not in the roster leaves the
    roster as it was, and from distinct ids the roster shrinks by one
    when the id was there. *)
Theorem removeAccount_removes_that_id
    (w : World) (account : SessionAccount) (st : State) :
  let s1 := snd (removeAccount account st) in
  fst (removeAccount account st) = Ok tt /\
  accounts s1 = filter (otherThan account) (accounts st) /\
  (forall a, In a (accounts s1) <->
             In a (accounts st) /\ did a <> did account) /\
  ~ In (did account) (dids (accounts s1)) /\
  agent s1 = agent st /\
  currentAccount w s1 = currentAccount w st /\
  trace s1 = trace st /\
  (~ In (did account) (dids (accounts st)) -> accounts s1 = accounts st) /\
  (NoDup (dids (accounts st)) -> In (did account) (dids (accounts st)) ->
     S (length (accounts s1)) = length (accounts st)).
Proof.
  cbv zeta. run. split; [reflexivity|]. split; [reflexivity|].
  split.
  { intros a. rewrite filter_In. unfold otherThan, sameDid.
    destruct (String.eqb_spec (did a) (did account)); simpl; intuition congruence. }
  split; [apply did_not_in_others|].
  split; [reflexivity|]. split; [reflexivity|]. split; [reflexivity|].
  split; [apply filter_otherThan_absent | apply filter_otherThan_length].
Qed.

(** X7: upserting and removing the same id undo each other on the
    roster: removing an account just upserted gives the roster that
    removing it from the start gives, upserting an account just removed
    gives the roster that upserting it from the start gives, and
    removing twice is removing once. *)
Theorem upsert_remove_compose
    (account : SessionAccount) (st : State) :
  accounts (snd (removeAccount account (snd (upsertAccount account st))))
  = accounts (snd (removeAccount account st)) /\
  accounts (snd (upsertAccount account (snd (removeAccount account st))))
  = accounts (snd (upsertAccount account st)) /\
  accounts (snd (removeAccount account (snd (removeAccount account st))))
  = accounts (snd (removeAccount account st)) /\
  (~ In (did account) (dids (accounts st)) ->
   accounts (snd (removeAccount account (snd (upsertAccount account st))))
   = accounts st).
Proof.
  assert (Idem : forall l, filter (otherThan account) (filter (otherThan account) l)
                           = filter (otherThan account) l).
  { intros l. apply filter_otherThan_absent, did_not_in_others. }
  assert (Self : otherThan account account = false)
    by (unfold otherThan, sameDid; now rewrite String.eqb_refl).
  rewrite upsertAccount_run. run. rewrite !Self, !Idem. repeat split.
  intros H. now apply filter_otherThan_absent.
Qed.

(** ** The installed handler, event by event *)

Lemma sessionDrops_cons (e : Event) (s s' : State) :
  trace s' = e :: trace s ->
  sessionDrops s' = (if isSessionDropped e then 1 else 0) + sessionDrops s.
Proof.
  unfold sessionDrops. intros ->. simpl.
  destruct (isSessionDropped e); reflexivity.
Qed.

(** X8: an 'expired' or 'create-failed' event that comes without a
    session always completes; it puts the account at the front of the
    roster with both tokens undefined, not deactivated and with its
    other fields as they were, leaves every entry of another id in the
    roster, emits the session-dropped notification exactly once, makes
    no remote call, and leaves the public agent active. *)
Theorem persistSession_expired_signs_account_out
    (w : World) (account : SessionAccount) (event : AtpSessionEvent)
    (st : State) :
  isExpiredEvent event = true ->
  let s1 := snd (persistSession w account event None st) in
  fst (persistSession w account event None st) = Ok tt /\
  accounts s1 =
    mkAccount (service account) (did account) (handle account)
      (email account) (emailConfirmed account) (Some false) None None
    :: filter (otherThan account) (accounts st) /\
  (forall a, In a (accounts st) -> did a <> did account ->
             In a (accounts s1)) /\
  sessionDrops s1 = S (sessionDrops st) /\
  netCalls s1 = netCalls st /\
  agent s1 = PUBLIC_BSKY_AGENT w /\
  hasSession w s1 = Ok false.
Proof.
  intros Hexp.
  assert (Hev : event <> EvNetworkError) by (intros ->; discriminate).
  cbv zeta.
  rewrite (persistSession_run w account event None false st Hev eq_refl).
  cbv zeta. rewrite Hexp. cbn [fst snd accounts trace agent].
  split; [reflexivity|]. split; [reflexivity|].
  split.
  { intros a Hin Hne. right. now apply others_keeps_order. }
  repeat split.
Qed.

Lemma persistSession_expired_signs_account_out_witness :
  dids (accounts (snd (persistSession Sample.offline Sample.alice EvExpired None
                         (Sample.signedIn Sample.alice [Sample.alice; Sample.bob]))))
  = ["did:plc:A"; "did:plc:B"] /\
  sessionDrops (snd (persistSession Sample.offline Sample.alice EvExpired None
                       (Sample.signedIn Sample.alice [Sample.alice; Sample.bob])))
  = 1.
Proof.
  pose proof (persistSession_expired_signs_account_out Sample.offline
                Sample.alice EvExpired
                (Sample.signedIn Sample.alice [Sample.alice; Sample.bob])
                eq_refl) as H.
  cbv zeta in H. destruct H as (_ & Hacc & _ & Hdrop & _).
  split; [now rewrite Hacc | exact Hdrop].
Defined.

(** X9: a 'create' or 'update' event with a session either finds the
    session's access token undecodable, and then throws the decoder's
    exception leaving the whole state as it was, or it puts at the front
    of the roster a record with the session's two tokens and the token's
    deactivation mark, keeping agent, notifications and remote calls
    untouched; and receiving the same event once more leaves the roster
    as the first delivery left it. *)
Theorem persistSession_update_is_idempotent
    (w : World) (account : SessionAccount) (event : AtpSessionEvent)
    (sess : AtpSessionData) (st : State) :
  event = EvCreate \/ event = EvUpdate ->
  let s1 := snd (persistSession w account event (Some sess) st) in
  (forall e, isSessionDeactivated w (Some (sess_accessJwt sess)) = Throw e ->
     persistSession w account event (Some sess) st = (Throw e, st)) /\
  (forall d, isSessionDeactivated w (Some (sess_accessJwt sess)) = Ok d ->
     fst (persistSession w account event (Some sess) st) = Ok tt /\
     (exists r, accounts s1 = r :: filter (otherThan r) (accounts st) /\
        accessJwt r = Some (sess_accessJwt sess) /\
        refreshJwt r = Some (sess_refreshJwt sess) /\
        deactivated r = Some d /\
        service r = service account) /\
     agent s1 = agent st /\
     trace s1 = trace st /\
     isDirty s1 = true /\
     accounts (snd (persistSession w account event (Some sess) s1))
     = accounts s1).
Proof.
  intros Hk.
  assert (Hev : event <> EvNetworkError) by (destruct Hk; subst; discriminate).
  assert (Hexp : isExpiredEvent event = false) by (destruct Hk; subst; reflexivity).
  cbv zeta. split.
  - intros e He. now apply persistSession_throws.
  - intros d Hd.
    rewrite (persistSession_run w account event (Some sess) d st Hev Hd).
    cbv zeta. rewrite Hexp. cbn [fst snd accounts trace agent isDirty].
    split; [reflexivity|].
    split; [eexists; split; [reflexivity|]; repeat split|].
    split; [reflexivity|]. split; [reflexivity|]. split; [reflexivity|].
    match goal with
    | |- context [persistSession w account event (Some sess) ?s] =>
        rewrite (persistSession_run w account event (Some sess) d s Hev Hd)
    end.
    cbv zeta. rewrite Hexp. cbn [snd accounts].
    f_equal.
    apply (others_idempotent (refreshedAccountOf account (Some sess) d)
             (refreshedAccountOf account (Some sess) d)).
    reflexivity.
Qed.

Lemma persistSession_update_is_idempotent_witness :
  accounts (snd (persistSession Sample.offline Sample.alice EvUpdate
                   (Some (sessionAccountToAgentSession Sample.bobAgain))
                   (snd (persistSession Sample.offline Sample.alice EvUpdate
                           (Some (sessionAccountToAgentSession Sample.bobAgain))
                           (Sample.signedIn Sample.alice [Sample.alice])))))
  = accounts (snd (persistSession Sample.offline Sample.alice EvUpdate
                     (Some (sessionAccountToAgentSession Sample.bobAgain))
                     (Sample.signedIn Sample.alice [Sample.alice]))).
Proof.
  pose proof (persistSession_update_is_idempotent Sample.offline Sample.alice
                EvUpdate (sessionAccountToAgentSession Sample.bobAgain)
                (Sample.signedIn Sample.alice [Sample.alice])
                (or_intror eq_refl)) as H.
  cbv zeta in H. destruct H as (_ & H).
  exact (proj2 (proj2 (proj2 (proj2 (proj2 (H false eq_refl)))))).
Defined.

(** ** login and createAccount *)

Lemma adoptAgent_state (w : World) (a : BskyAgent) (account : SessionAccount)
    (s : State) :
  exists a' labs,
    adoptAgent w a account s =
    (Ok tt, mkState a' (account :: filter (otherThan account) (accounts s))
              (isInitialLoad s) (isSwitchingAccounts s) true labs
              ((if IS_TEST_USER w (handle account)
                then [NetResolveHandle TEST_MOD_AUTHORITY] else [])
               ++ trace s)) /\
    agentService a' = agentService a /\ session a' = session a.
Proof.
  unfold adoptAgent. unfold bind at 1.
  destruct (configureModeration_run w a account s) as (a' & labs & E & Hs & Hn).
  rewrite E. exists a', labs. split; [reflexivity|auto].
Qed.

Lemma login_run (w : World) (props : LoginProps) (logContext : string)
    (s : State) :
  login w props logContext s =
  match agent_login w (trace s) props with
  | Throw e => (Throw e, loginEmitted props s)
  | Ok None =>
      (Throw (Error "session: login failed to establish a session"),
       loginEmitted props s)
  | Ok (Some sd) =>
      match isSessionDeactivated w (Some (sess_accessJwt sd)) with
      | Throw e => (Throw e, loginEmitted props s)
      | Ok d =>
          adoptAgent w (mkAgent (li_service props) (Some sd) [])
            (accountOfSession w (li_service props) sd d)
            (loginEmitted props s)
      end
  end.
Proof.
  unfold login.
  unfold bind at 1. unfold gets at 1. unfold bind at 1.
  unfold emit at 1, modify at 1. fold (loginEmitted props s).
  unfold bind at 1. unfold liftRes at 1.
  destruct (agent_login w (trace s) props) as [[sd|]|e]; try reflexivity.
  unfold bind at 1. unfold liftRes at 1.
  unfold agentToSessionAccount. cbn [session agentService].
  destruct (isSessionDeactivated w (Some (sess_accessJwt sd))) as [d|e];
    reflexivity.
Qed.

Lemma currentAccount_of_session (w : World) (a : BskyAgent) (svc : string)
    (sd : AtpSessionData) (d : bool) (s : State) :
  agent s = a -> agentService a = svc -> session a = Some sd ->
  isSessionDeactivated w (Some (sess_accessJwt sd)) = Ok d ->
  currentAccount w s = Ok (Some (accountOfSession w svc sd d)).
Proof.
  intros Ha Hsvc Hs Hd. unfold currentAccount, agentToSessionAccount.
  rewrite Ha, Hs, Hd, Hsvc. reflexivity.
Qed.

(** X10: login issues exactly one sign-in call.  When it completes, the
    new agent holds the session the call returned, the current account
    is the account derived from that session, and that account is at the
    front of the roster, before the entries of other ids.  When it
    throws (the call failed, returned no session, or returned an access
    token that does not decode) the roster, the active agent and the
    dirty mark are as before. *)
Theorem login_outcomes
    (w : World) (props : LoginProps) (logContext : string) (st : State) :
  let s1 := snd (login w props logContext st) in
  loginCalls s1 = S (loginCalls st) /\
  (fst (login w props logContext st) = Ok tt ->
     exists sd acct,
       agent_login w (trace st) props = Ok (Some sd) /\
       session (agent s1) = Some sd /\
       agentService (agent s1) = li_service props /\
       currentAccount w s1 = Ok (Some acct) /\
       did acct = sess_did sd /\
       accessJwt acct = Some (sess_accessJwt sd) /\
       refreshJwt acct = Some (sess_refreshJwt sd) /\
       accounts s1 = acct :: filter (otherThan acct) (accounts st)) /\
  (forall e, fst (login w props logContext st) = Throw e ->
     accounts s1 = accounts st /\ agent s1 = agent st /\
     isDirty s1 = isDirty st /\ appLabelers s1 = appLabelers st) /\
  (agent_login w (trace st) props = Ok None ->
     fst (login w props logContext st)
     = Throw (Error "session: login failed to establish a session")).
Proof.
  cbv zeta. rewrite login_run.
  destruct (agent_login w (trace st) props) as [[sd|]|e0] eqn:L;
    try (cbn [fst snd]; repeat split; try discriminate; reflexivity).
  destruct (isSessionDeactivated w (Some (sess_accessJwt sd))) as [d|e0] eqn:D;
    try (cbn [fst snd]; repeat split; try discriminate; reflexivity).
  destruct (adoptAgent_state w (mkAgent (li_service props) (Some sd) [])
              (accountOfSession w (li_service props) sd d)
              (loginEmitted props st)) as (a' & labs & E & Hsvc & Hsess).
  rewrite E. cbn [fst snd]. cbn [agentService session] in Hsvc, Hsess.
  split.
  { unfold loginCalls. cbn [trace loginEmitted]. rewrite filter_app, length_app.
    cbn [handle accountOfSession].
    destruct (IS_TEST_USER w (sess_handle sd)); reflexivity. }
  split.
  { intros _. exists sd, (accountOfSession w (li_service props) sd d).
    split; [reflexivity|]. split; [exact Hsess|]. split; [exact Hsvc|].
    split.
    { apply (currentAccount_of_session w a' (li_service props) sd d); auto. }
    repeat split. }
  split; [discriminate|discriminate].
Qed.

(** X11: when createAccount completes, the current account is the
    account derived from the created session and it is at the front of
    the roster, before the entries of other ids; when it throws, the
    roster, the active agent and the dirty mark are as before and no
    upsertProfile call has been issued. *)
Theorem createAccount_outcomes
    (w : World) (props : CreateAccountProps) (st : State) :
  let s1 := snd (createAccount w props st) in
  (fst (createAccount w props st) = Ok tt ->
     exists sd acct,
       agent_createAccount w (trace st) props = Ok (Some sd) /\
       session (agent s1) = Some sd /\
       agentService (agent s1) = ca_service props /\
       currentAccount w s1 = Ok (Some acct) /\
       did acct = sess_did sd /\
       accessJwt acct = Some (sess_accessJwt sd) /\
       refreshJwt acct = Some (sess_refreshJwt sd) /\
       accounts s1 = acct :: filter (otherThan acct) (accounts st)) /\
  (forall e, fst (createAccount w props st) = Throw e ->
     accounts s1 = accounts st /\ agent s1 = agent st /\
     isDirty s1 = isDirty st /\
     upsertProfileCalls s1 = upsertProfileCalls st) /\
  (agent_createAccount w (trace st) props = Ok None ->
     fst (createAccount w props st)
     = Throw (Error "session: createAccount failed to establish a session")).
Proof.
  cbv zeta. rewrite createAccount_run.
  destruct (agent_createAccount w (trace st) props) as [[sd|]|e0] eqn:L;
    try (cbn [fst snd]; repeat split; try discriminate; reflexivity).
  destruct (isSessionDeactivated w (Some (sess_accessJwt sd))) as [d|e0] eqn:D;
    try (cbn [fst snd]; repeat split; try discriminate; reflexivity).
  fold (accountOfSession w (ca_service props) sd d).
  match goal with
  | |- context [adoptAgent w ?a ?acc ?s] =>
      destruct (adoptAgent_state w a acc s) as (a' & labs & E & Hsvc & Hsess);
      rewrite E
  end.
  cbn [fst snd]. cbn [agentService session] in Hsvc, Hsess.
  split.
  { intros _. exists sd, (accountOfSession w (ca_service props) sd d).
    split; [reflexivity|]. split; [exact Hsess|]. split; [exact Hsvc|].
    split.
    { apply (currentAccount_of_session w a' (ca_service props) sd d); auto. }
    split; [reflexivity|]. split; [reflexivity|]. split; [reflexivity|].
    destruct d; reflexivity. }
  split; [discriminate|discriminate].
Qed.

(** ** resumeSession and selectAccount *)

(** X12: resumeSession never throws and always ends with isInitialLoad
    false, whatever the initSession it is given does, a throw included;
    called without an account it changes nothing else, so a cold start
    with no stored account makes no remote call. *)
Theorem resumeSession_always_completes
    (init : SessionAccount -> M unit) (account : option SessionAccount)
    (st : State) :
  fst (resumeSessionWith init account st) = Ok tt /\
  isInitialLoad (snd (resumeSessionWith init account st)) = false /\
  (account = None ->
     snd (resumeSessionWith init account st) = withInitialLoad false st) /\
  (forall a, account = Some a ->
     snd (resumeSessionWith init account st)
     = withInitialLoad false (snd (init a st))) /\
  (forall w, account = None ->
     netCalls (snd (resumeSession w account st)) = netCalls st /\
     agent (snd (resumeSession w account st)) = agent st /\
     accounts (snd (resumeSession w account st)) = accounts st).
Proof.
  destruct account as [a|].
  - rewrite resumeSessionWith_run.
    split; [reflexivity|]. split; [reflexivity|]. split; [discriminate|].
    split; [|discriminate]. intros a' [= <-]. reflexivity.
  - split; [reflexivity|]. split; [reflexivity|]. split; [reflexivity|].
    split; [discriminate|]. intros w _. repeat split.
Qed.

(** X13: selecting an account whose cached token can be reused makes it
    the current account without any resume call: selectAccount
    completes, isSwitchingAccounts is false again, the active agent
    holds the account's cached session, the account is at the front of
    the roster, and every roster entry of another id is still there,
    unchanged. *)
Theorem selectAccount_switches_to_cached
    (w : World) (account : SessionAccount) (logContext : string)
    (st : State) :
  canReusePrevSession w account = true ->
  let s1 := snd (selectAccount w account logContext st) in
  fst (selectAccount w account logContext st) = Ok tt /\
  isSwitchingAccounts s1 = false /\
  session (agent s1) = Some (prevSessionOf account) /\
  (exists cur, currentAccount w s1 = Ok (Some cur) /\
               did cur = did account /\ handle cur = handle account /\
               accessJwt cur = accessJwt account) /\
  hasSession w s1 = Ok true /\
  accounts s1 = account :: filter (otherThan account) (accounts st) /\
  (forall a, In a (accounts st) -> did a <> did account ->
             In a (accounts s1)) /\
  resumeCalls s1 = resumeCalls st.
Proof.
  intros C. cbv zeta.
  unfold selectAccount. rewrite selectAccountWith_run.
  pose proof (initSession_reuse_calls w account (withSwitching true st) C) as Hc.
  rewrite (initSession_reuse_run w account (withSwitching true st) C) in *.
  cbn [fst snd] in *.
  destruct (moderated_run w account (withSwitching true st))
    as (a' & labs & _ & Ea & Es & Hsvc & _).
  apply canReusePrevSession_spec in C.
  destruct C as (t & c & e & At & Ht & D & _).
  assert (Hd : isSessionDeactivated w (Some (sess_accessJwt (prevSessionOf account)))
               = Ok (isDeactivatedScope (scope c))).
  { unfold isSessionDeactivated. cbn [prevSessionOf sess_accessJwt].
    rewrite At. cbn [orEmpty]. apply truthy_Some in Ht. rewrite Ht.
    cbn [orEmpty]. now rewrite D. }
  assert (Hcur : currentAccount w
            (withSwitching false
               (mkState (withSession (fst (moderated w account (withSwitching true st)))
                           (prevSessionOf account))
                  (account :: filter (otherThan account) (accounts (withSwitching true st)))
                  (isInitialLoad (withSwitching true st))
                  (isSwitchingAccounts (withSwitching true st)) true
                  (appLabelers (snd (moderated w account (withSwitching true st))))
                  (trace (snd (moderated w account (withSwitching true st))))))
          = Ok (Some (accountOfSession w (service account)
                        (prevSessionOf account)
                        (isDeactivatedScope (scope c))))).
  { unfold currentAccount, agentToSessionAccount.
    cbn [agent withSwitching withSession session agentService].
    rewrite Hd, Ea, Hsvc. reflexivity. }
  split; [reflexivity|]. split; [reflexivity|]. split; [reflexivity|].
  split.
  { eexists. split; [exact Hcur|].
    cbn [accountOfSession did handle accessJwt prevSessionOf sess_did
         sess_handle sess_accessJwt].
    rewrite At. repeat split. }
  split.
  { unfold hasSession. now rewrite Hcur. }
  split; [reflexivity|].
  split.
  { intros a Hin Hne. right. now apply others_keeps_order. }
  exact Hc.
Qed.

Lemma selectAccount_switches_to_cached_witness :
  dids (accounts (snd (selectAccount Sample.offline Sample.alice "SwitchAccount"
                         (Sample.signedIn Sample.bobAgain
                            [Sample.bobAgain; Sample.alice]))))
  = ["did:plc:A"; "did:plc:B"] /\
  resumeCalls (snd (selectAccount Sample.offline Sample.alice "SwitchAccount"
                      (Sample.signedIn Sample.bobAgain
                         [Sample.bobAgain; Sample.alice])))
  = 0.
Proof.
  pose proof (selectAccount_switches_to_cached Sample.offline Sample.alice
                "SwitchAccount"
                (Sample.signedIn Sample.bobAgain [Sample.bobAgain; Sample.alice])
                eq_refl) as H.
  cbv zeta in H. destruct H as (_ & _ & _ & _ & _ & Hacc & _ & Hn).
  split; [now rewrite Hacc | exact Hn].
Defined.

(** ** Moderation *)

(** X14: configureModeration never throws and touches neither roster,
    active agent nor flags.  For an ordinary handle it makes no remote
    call, sets the app labelers to the default labeler alone, and, when
    the cache has labelers for the account, gives the agent those that
    are not the default one, in their order (so the default never
    appears in the header).  For a test handle it makes the one
    resolveHandle call, leaves the agent as it was, and sets the app
    labelers to the resolved id alone; when nothing is resolved the app
    labelers stay whatever they were. *)
Theorem configureModeration_labelers
    (w : World) (a : BskyAgent) (account : SessionAccount) (st : State) :
  exists a' s1,
    configureModeration w a account st = (Ok a', s1) /\
    accounts s1 = accounts st /\ agent s1 = agent st /\
    isDirty s1 = isDirty st /\
    agentService a' = agentService a /\ session a' = session a /\
    (IS_TEST_USER w (handle account) = false ->
       trace s1 = trace st /\
       appLabelers s1 = [BSKY_LABELER_DID w] /\
       (readLabelers w (did account) = None -> a' = a) /\
       (forall l, readLabelers w (did account) = Some l ->
          labelersHeader a' = filter (fun d => negb (d =? BSKY_LABELER_DID w)) l /\
          ~ In (BSKY_LABELER_DID w) (labelersHeader a') /\
          (forall d, In d l -> d <> BSKY_LABELER_DID w ->
                     In d (labelersHeader a')))) /\
    (IS_TEST_USER w (handle account) = true ->
       trace s1 = NetResolveHandle "mod-authority.test" :: trace st /\
       a' = a /\
       (forall d, agent_resolveHandle w (trace st) "mod-authority.test" = Some d ->
          d <> "" -> appLabelers s1 = [d]) /\
       (truthy (agent_resolveHandle w (trace st) "mod-authority.test") = false ->
          appLabelers s1 = appLabelers st)).
Proof.
  unfold configureModeration. fold TEST_MOD_AUTHORITY.
  destruct (IS_TEST_USER w (handle account)) eqn:T.
  - run. destruct (truthy (agent_resolveHandle w (trace st) TEST_MOD_AUTHORITY))
      eqn:R; eexists; eexists; (split; [reflexivity|]);
      cbn [accounts agent isDirty trace appLabelers];
      (do 5 (split; [reflexivity|])); (split; [discriminate|]); intros _;
      (split; [reflexivity|]); (split; [reflexivity|]); split.
    + intros d Hd _. now rewrite Hd.
    + discriminate.
    + intros d Hd Hne. rewrite Hd in R. apply truthy_Some in Hne. congruence.
    + reflexivity.
  - run. destruct (readLabelers w (did account)) as [l|] eqn:L;
      eexists; eexists; (split; [reflexivity|]);
      cbn [accounts agent isDirty trace appLabelers agentService session
           labelersHeader];
      (do 5 (split; [reflexivity|])); (split; [|discriminate]); intros _;
      (split; [reflexivity|]); (split; [reflexivity|]); split.
    + discriminate.
    + intros l' [= <-]. split; [reflexivity|]. split.
      * intros Hin. apply filter_In in Hin. destruct Hin as [_ Hin].
        now rewrite String.eqb_refl in Hin.
      * intros d Hin Hne. apply filter_In. split; auto.
        apply String.eqb_neq in Hne. now rewrite Hne.
    + destruct a; reflexivity.
    + discriminate.
Qed.

(** ** Receiving a snapshot *)

(** X17: what a received snapshot does to the roster and the dirty
    mark.  The in-memory roster is given up for the persisted one: the
    new roster is the persisted roster, or comes from it by the upserts
    of initSession when that runs.  When the persisted current account
    has the id of the in-memory one and a refresh token, or has no
    refresh token, or is absent like the in-memory one, nothing is
    marked for writing and no remote call is made, so receiving does not
    cause a write back.  When the current account cannot be derived
    (its token does not decode), the subscription throws and changes
    nothing. *)
Theorem onUpdate_takes_persisted_roster
    (w : World) (p : PersistedSession) (st : State) :
  (forall cur, currentAccount w st = Ok cur ->
     upserted (p_accounts p) (accounts (snd (onUpdate w p st))) /\
     ((exists pc, p_currentAccount p = Some pc /\
         (truthy (refreshJwt pc) = false \/
          option_map did cur = Some (did pc))) \/
      (p_currentAccount p = None /\ cur = None) ->
      accounts (snd (onUpdate w p st)) = p_accounts p /\
      isDirty (snd (onUpdate w p st)) = isDirty st /\
      trace (snd (onUpdate w p st)) = trace st /\
      fst (onUpdate w p st) = Ok tt)) /\
  (forall e, currentAccount w st = Throw e ->
     onUpdate w p st = (Throw e, st)).
Proof.
  split.
  - intros cur C. rewrite (onUpdate_run w p st cur C). split.
    + destruct (p_currentAccount p) as [pc|].
      * destruct (truthy (refreshJwt pc)); [|apply upserted_refl].
        destruct (negb _); [|apply upserted_refl].
        apply (initSession_upserted w pc (withAccounts (p_accounts p) st)).
      * destruct cur; apply upserted_refl.
    + intros [(pc & -> & H)|[-> ->]]; [|repeat split].
      destruct (truthy (refreshJwt pc)); [|repeat split].
      destruct H as [H|H]; [discriminate|].
      assert (E : optDidEq (Some (did pc)) (option_map did cur) = true)
        by (apply optDidEq_spec; congruence).
      rewrite E. repeat split.
  - intros e C. unfold currentAccount in C. unfold onUpdate.
    unfold bind at 1. unfold gets at 1. unfold bind at 1. unfold liftRes at 1.
    now rewrite C.
Qed.

(** * Post controls *)

Section PostControls.
Import PostCtrls.
Context (q : Queues) (post : PostView) (feedContext : option string).

Lemma isBlocked_spec :
  isBlocked post = true <->
  exists v, authorViewer post = Some v /\
    ((exists b, blocking v = Some b /\ b <> "") \/
     blockedBy v = Some true \/
     (exists l, blockingByList v = Some l)).
Proof.
  unfold isBlocked. destruct (authorViewer post) as [v|].
  - rewrite !orb_true_iff. split.
    + intros [[H|H]|H]; exists v; split; auto.
      * left. destruct (blocking v) as [b|]; [|discriminate].
        exists b. split; auto. now apply truthy_Some.
      * right; left. destruct (blockedBy v) as [[|]|]; congruence.
      * right; right. destruct (blockingByList v) as [l|]; [eauto|discriminate].
    + intros (v' & [= <-] & [(b & -> & Hb)|[->|(l & ->)]]); auto.
      left; left. now apply truthy_Some.
  - split; [discriminate|]. intros (v & H & _). discriminate.
Qed.

(** X18: towards a blocked author (the viewer blocks, is blocked by, or
    blocks by list) the like, repost and quote handlers do one thing
    only: they show the 'Cannot interact with a blocked user' toast.
    No interaction is sent, no mutation is queued, the composer is not
    opened, the like icon is not marked as toggled, and nothing is
    thrown whatever the queues would answer.  The share handler has no
    such gate: it sends its interaction for every post. *)
Theorem blocked_author_only_toast (s : Ui) :
  (isBlocked post = true ->
     forall h,
       In h [onPressToggleLike q post feedContext;
             onRepost q post feedContext;
             onQuote post feedContext] ->
       h s = (Done tt,
              mkUi (hasLikeIconBeenToggled s)
                (ToastShow "Cannot interact with a blocked user"
                   "exclamation-circle" :: effects s)) /\
       mutations (snd (h s)) = mutations s /\
       interactions (snd (h s)) = interactions s) /\
  onShare post feedContext s =
    (Done tt,
     mkUi (hasLikeIconBeenToggled s)
       (SendInteraction (uri post) "app.bsky.feed.defs#interactionShare"
          feedContext :: effects s)).
Proof.
  split; [|reflexivity].
  intros B h [<-|[<-|[<-|[]]]];
    unfold onPressToggleLike, onRepost, onQuote; rewrite B; repeat split.
Qed.

(** The outcome of the one queue call a toggle makes. *)
Lemma onPressToggleLike_run (s : Ui) :
  isBlocked post = false ->
  onPressToggleLike q post feedContext s =
  if viewerLike post then
    (match unlikeResult q (effects s) with
     | Done _ => Done tt
     | Raised e => if isAbortError e then Done tt else Raised e
     end,
     mkUi true (QueueUnlike :: effects s))
  else
    (match likeResult q
             (CaptureAction "Like"
              :: SendInteraction (uri post) LIKE_EVENT feedContext
              :: PlayHaptic "Light" :: effects s) with
     | Done _ => Done tt
     | Raised e => if isAbortError e then Done tt else Raised e
     end,
     mkUi true
       (QueueLike :: CaptureAction "Like"
        :: SendInteraction (uri post) LIKE_EVENT feedContext
        :: PlayHaptic "Light" :: effects s)).
Proof.
  intros B. unfold onPressToggleLike. rewrite B.
  unfold ucatch, ubind, setHasLikeIconBeenToggled, effect, await, swallowAbort.
  destruct (viewerLike post); cbn [negb hasLikeIconBeenToggled effects].
  - destruct (unlikeResult q (effects s)) as [[]|e]; [reflexivity|].
    unfold uret, uraise. destruct (isAbortError e); reflexivity.
  - destruct (likeResult q _) as [[]|e]; [reflexivity|].
    unfold uret, uraise. destruct (isAbortError e); reflexivity.
Qed.

Lemma onRepost_run (s : Ui) :
  isBlocked post = false ->
  onRepost q post feedContext s =
  if viewerRepost post then
    (match unrepostResult q (effects s) with
     | Done _ => Done tt
     | Raised e => if isAbortError e then Done tt else Raised e
     end,
     mkUi (hasLikeIconBeenToggled s) (QueueUnrepost :: effects s))
  else
    (match repostResult q
             (SendInteraction (uri post) REPOST_EVENT feedContext
              :: effects s) with
     | Done _ => Done tt
     | Raised e => if isAbortError e then Done tt else Raised e
     end,
     mkUi (hasLikeIconBeenToggled s)
       (QueueRepost :: SendInteraction (uri post) REPOST_EVENT feedContext
        :: effects s)).
Proof.
  intros B. unfold onRepost. rewrite B.
  unfold ucatch, ubind, effect, await, swallowAbort.
  destruct (viewerRepost post); cbn [negb hasLikeIconBeenToggled effects].
  - destruct (unrepostResult q (effects s)) as [[]|e]; [reflexivity|].
    unfold uret, uraise. destruct (isAbortError e); reflexivity.
  - destruct (repostResult q _) as [[]|e]; [reflexivity|].
    unfold uret, uraise. destruct (isAbortError e); reflexivity.
Qed.

(** X19: for an author who is not blocked, a like toggle queues exactly
    one mutation, the like when the post is not yet liked and the
    unlike when it is, and marks the like icon as toggled whether or not
    the mutation succeeds; the haptic, the like interaction and the
    progress-guide action go out only when liking, before the mutation
    is queued.  A repost toggle likewise queues exactly one of repost
    and unrepost and sends its interaction only when reposting. *)
Theorem toggles_queue_one_mutation (s : Ui) :
  isBlocked post = false ->
  let l := snd (onPressToggleLike q post feedContext s) in
  let r := snd (onRepost q post feedContext s) in
  hasLikeIconBeenToggled l = true /\
  mutations l = (if viewerLike post then QueueUnlike else QueueLike)
                :: mutations s /\
  (viewerLike post = true -> effects l = QueueUnlike :: effects s) /\
  (viewerLike post = false ->
     effects l = QueueLike :: CaptureAction "Like"
                 :: SendInteraction (uri post)
                      "app.bsky.feed.defs#interactionLike" feedContext
                 :: PlayHaptic "Light" :: effects s) /\
  hasLikeIconBeenToggled r = hasLikeIconBeenToggled s /\
  mutations r = (if viewerRepost post then QueueUnrepost else QueueRepost)
                :: mutations s /\
  (viewerRepost post = true -> effects r = QueueUnrepost :: effects s) /\
  (viewerRepost post = false ->
     effects r = QueueRepost
                 :: SendInteraction (uri post)
                      "app.bsky.feed.defs#interactionRepost" feedContext
                 :: effects s).
Proof.
  intros B. cbv zeta. rewrite onPressToggleLike_run, onRepost_run by assumption.
  destruct (viewerLike post), (viewerRepost post); cbn [snd];
    repeat split; try discriminate.
Qed.

(** X20: a mutation that rejects with an error named 'AbortError' is
    absorbed, and the toggle completes; a rejection with any other
    name, or with no name at all, is thrown on unchanged.  So a like or
    repost toggle towards an author who is not blocked throws exactly
    what its one queue call rejected with, provided that is not an
    abort. *)
Theorem toggles_absorb_only_abort (s : Ui) (e : Thrown) :
  isBlocked post = false ->
  let likeCall :=
    if viewerLike post then unlikeResult q (effects s)
    else likeResult q
           (CaptureAction "Like"
            :: SendInteraction (uri post) LIKE_EVENT feedContext
            :: PlayHaptic "Light" :: effects s) in
  let repostCall :=
    if viewerRepost post then unrepostResult q (effects s)
    else repostResult q
           (SendInteraction (uri post) REPOST_EVENT feedContext :: effects s) in
  (fst (onPressToggleLike q post feedContext s) = Raised e <->
     likeCall = Raised e /\ thrownName e <> Some "AbortError") /\
  (fst (onRepost q post feedContext s) = Raised e <->
     repostCall = Raised e /\ thrownName e <> Some "AbortError") /\
  (likeCall = Raised e -> thrownName e = Some "AbortError" ->
     fst (onPressToggleLike q post feedContext s) = Done tt) /\
  (repostCall = Raised e -> thrownName e = Some "AbortError" ->
     fst (onRepost q post feedContext s) = Done tt).
Proof.
  intros B. cbv zeta.
  assert (A : forall x, isAbortError x = true <-> thrownName x = Some "AbortError").
  { intros x. unfold isAbortError. destruct (thrownName x) as [n|].
    - rewrite String.eqb_eq. split; congruence.
    - split; discriminate. }
  assert (K : forall (r : Outcome unit),
            (match r with
             | Done _ => Done tt
             | Raised x => if isAbortError x then Done tt else Raised x
             end = Raised e <->
             r = Raised e /\ thrownName e <> Some "AbortError") /\
            (r = Raised e -> thrownName e = Some "AbortError" ->
             match r with
             | Done _ => @Done unit tt
             | Raised x => if isAbortError x then Done tt else Raised x
             end = Done tt)).
  { intros r. split.
    - destruct r as [u|x]; [split; [discriminate|intros [H _]; discriminate]|].
      destruct (isAbortError x) eqn:Ax.
      + split; [discriminate|]. intros [[= ->] N]. apply A in Ax. contradiction.
      + split.
        * intros [= ->]. split; auto. intros N. apply A in N. congruence.
        * intros [[= ->] _]. reflexivity.
    - intros -> N. apply A in N. now rewrite N. }
  rewrite onPressToggleLike_run, onRepost_run by assumption.
  destruct (viewerLike post), (viewerRepost post); cbn [fst];
    (split; [apply K|]); (split; [apply K|]); split; apply K.
Qed.

(** X21: the like button asks for a session first.  Its press handler
    never throws, even when the mutation rejects, since the promise of
    the toggle is dropped.  Without a session a press plays the button's
    haptic, closes all active elements and shows the logged-out view,
    and queues no mutation and sends no interaction; with a session it
    plays the haptic and runs the toggle. *)
Theorem like_button_requires_session (s : Ui) (hasSession : bool) :
  let pressed b :=
    press (handlePress (likeOnPress q post feedContext b)) s in
  fst (pressed hasSession) = Done tt /\
  snd (pressed false)
  = mkUi (hasLikeIconBeenToggled s)
      (SetShowLoggedOut true :: CloseAll :: PlayHaptic "Light" :: effects s) /\
  mutations (snd (pressed false)) = mutations s /\
  interactions (snd (pressed false)) = interactions s /\
  snd (pressed true)
  = snd (onPressToggleLike q post feedContext
           (mkUi (hasLikeIconBeenToggled s) (PlayHaptic "Light" :: effects s))).
Proof.
  cbv zeta. destruct hasSession; repeat split.
Qed.

(** X22: the reply button has a press handler exactly when replies are
    not disabled for the viewer: when they are, a press does nothing,
    not even the haptic.  Otherwise a press plays the haptic and then,
    with a session, calls onPressReply, and without one closes all
    active elements and shows the logged-out view instead. *)
Theorem reply_button_gates (s : Ui) (hasSession : bool) :
  let h := handlePress (replyOnPress post hasSession) in
  (h = None <->
     exists v, viewer post = Some v /\ replyDisabled v = Some true) /\
  (h = None -> press h s = (Done tt, s)) /\
  (h <> None ->
     press h s =
     (Done tt,
      mkUi (hasLikeIconBeenToggled s)
        (if hasSession
         then PressReply :: PlayHaptic "Light" :: effects s
         else SetShowLoggedOut true :: CloseAll :: PlayHaptic "Light"
              :: effects s))).
Proof.
  cbv zeta. unfold replyOnPress.
  destruct (viewer post) as [[l r [[|]|]]|]; cbn [handlePress press].
  - split; [split; [intros _; eexists; split; reflexivity|reflexivity]|].
    split; [reflexivity|congruence].
  - split; [split; [discriminate|intros (v & [= <-] & H); discriminate]|].
    split; [discriminate|]. intros _. destruct hasSession; reflexivity.
  - split; [split; [discriminate|intros (v & [= <-] & H); discriminate]|].
    split; [discriminate|]. intros _. destruct hasSession; reflexivity.
  - split; [split; [discriminate|intros (v & H & _); discriminate]|].
    split; [discriminate|]. intros _. destruct hasSession; reflexivity.
Qed.

End PostControls.

Lemma blocked_author_only_toast_witness :
  PostCtrls.mutations (snd (PostCtrls.onPressToggleLike Fixtures.failing Fixtures.blocked
                    None Fixtures.idle)) = [].
Proof.
  exact (proj1 (proj2 (proj1
    (blocked_author_only_toast Fixtures.failing Fixtures.blocked None
       Fixtures.idle) eq_refl _ (or_introl eq_refl)))).
Defined.

Lemma toggles_queue_one_mutation_witness :
  PostCtrls.mutations
    (snd (PostCtrls.onPressToggleLike Fixtures.calm Fixtures.liked None
            Fixtures.idle))
  = [PostCtrls.QueueUnlike].
Proof.
  exact (proj1 (proj2
    (toggles_queue_one_mutation Fixtures.calm Fixtures.liked None
       Fixtures.idle eq_refl))).
Defined.

Lemma toggles_absorb_only_abort_witness :
  fst (PostCtrls.onPressToggleLike Fixtures.failing Fixtures.plain None
         Fixtures.idle)
  = PostCtrls.Raised (PostCtrls.mkThrown (Some "TypeError") "boom") /\
  fst (PostCtrls.onPressToggleLike Fixtures.aborting Fixtures.plain None
         Fixtures.idle)
  = PostCtrls.Done tt.
Proof.
  split.
  - apply (proj1 (toggles_absorb_only_abort Fixtures.failing Fixtures.plain None
                    Fixtures.idle
                    (PostCtrls.mkThrown (Some "TypeError") "boom") eq_refl)).
    split; [reflexivity|discriminate].
  - exact (proj1 (proj2 (proj2
      (toggles_absorb_only_abort Fixtures.aborting Fixtures.plain None
         Fixtures.idle
         (PostCtrls.mkThrown (Some "AbortError") "aborted") eq_refl)))
      eq_refl eq_refl).
Defined.

(** ** Session state and the controls together *)

Lemma hasSession_public (w : World) (s : State) :
  agent s = PUBLIC_BSKY_AGENT w -> hasSession w s = Ok false.
Proof.
  intros E. unfold hasSession, currentAccount. now rewrite E.
Qed.

Lemma login_hasSession (w : World) (props : LoginProps) (logContext : string)
    (st : State) :
  fst (login w props logContext st) = Ok tt ->
  hasSession w (snd (login w props logContext st)) = Ok true.
Proof.
  rewrite login_run.
  destruct (agent_login w (trace st) props) as [[sd|]|e0]; try discriminate.
  destruct (isSessionDeactivated w (Some (sess_accessJwt sd))) as [d|e0] eqn:D;
    try discriminate.
  destruct (adoptAgent_state w (mkAgent (li_service props) (Some sd) [])
              (accountOfSession w (li_service props) sd d)
              (loginEmitted props st)) as (a' & labs & E & Hsvc & Hsess).
  rewrite E. cbn [fst snd]. intros _. unfold hasSession.
  rewrite (currentAccount_of_session w a' (li_service props) sd d); auto.
Qed.

(** X23: signing out closes the like button.  After logout, after
    clearCurrentAccount, and after an 'expired' or 'network-error' event
    of the installed handler, hasSession is false, so a press on the like
    button of any post queues no mutation and sends no interaction but
    shows the logged-out view; after a login that completed, hasSession
    is true and a press runs the like toggle. *)
Theorem signing_out_closes_like_button
    (w : World) (logContext : string) (account : SessionAccount)
    (st : State) (q : PostCtrls.Queues) (post : PostCtrls.PostView)
    (feedContext : option string) (ui : PostCtrls.Ui) :
  (forall s',
     In s' [snd (logout w logContext st);
            snd (clearCurrentAccount w st);
            snd (persistSession w account EvExpired None st);
            snd (persistSession w account EvNetworkError None st)] ->
     hasSession w s' = Ok false /\
     forall b, hasSession w s' = Ok b ->
       let after := snd (PostCtrls.press
                           (PostCtrls.handlePress
                              (PostCtrls.likeOnPress q post feedContext b)) ui) in
       PostCtrls.mutations after = PostCtrls.mutations ui /\
       PostCtrls.interactions after = PostCtrls.interactions ui /\
       In (PostCtrls.SetShowLoggedOut true) (PostCtrls.effects after)) /\
  (forall props b,
     fst (login w props logContext st) = Ok tt ->
     hasSession w (snd (login w props logContext st)) = Ok b ->
     snd (PostCtrls.press
            (PostCtrls.handlePress
               (PostCtrls.likeOnPress q post feedContext b)) ui)
     = snd (PostCtrls.onPressToggleLike q post feedContext
              (PostCtrls.mkUi (PostCtrls.hasLikeIconBeenToggled ui)
                 (PostCtrls.PlayHaptic "Light" :: PostCtrls.effects ui)))).
Proof.
  split.
  - intros s' Hin.
    assert (P : hasSession w s' = Ok false).
    { apply hasSession_public.
      destruct Hin as [<-|[<-|[<-|[<-|[]]]]]; reflexivity. }
    split; [exact P|].
    intros b Hb. rewrite P in Hb. injection Hb as <-.
    cbv zeta. cbn. repeat split. auto.
  - intros props b Hok Hb. rewrite (login_hasSession w props logContext st Hok) in Hb.
    injection Hb as <-. reflexivity.
Qed.

(** ** What no operation does *)

Lemma initSession_agent (w : World) (account : SessionAccount) (s : State) :
  activeOrPublic w (snd (initSession w account s)).
Proof.
  unfold activeOrPublic. destruct (canReusePrevSession w account) eqn:C.
  - rewrite initSession_reuse_run by assumption. right. simpl. eauto.
  - rewrite initSession_resume_run by assumption.
    pose proof (resumeWithRetry_agent w account s) as A.
    destruct (resumeWithRetry w account s) as [[a2|e] s2]; cbn [fst snd] in *.
    + right. destruct (A a2 eq_refl) as (_ & sd & E). exists sd. exact E.
    + left. reflexivity.
Qed.

Lemma selectAccount_state (w : World) (account : SessionAccount)
    (logContext : string) (s : State) :
  snd (selectAccount w account logContext s)
  = withSwitching false (snd (initSession w account (withSwitching true s))).
Proof.
  unfold selectAccount. rewrite selectAccountWith_run.
  destruct (initSession w account (withSwitching true s)) as [[u|e] s1];
    reflexivity.
Qed.

Lemma adoptAgent_agent (w : World) (a : BskyAgent) (account : SessionAccount)
    (s : State) (sd : AtpSessionData) :
  session a = Some sd ->
  session (agent (snd (adoptAgent w a account s))) = Some sd.
Proof.
  intros Hs.
  destruct (adoptAgent_state w a account s) as (a' & labs & E & _ & Hsess).
  rewrite E. cbn [snd agent]. congruence.
Qed.

Lemma perform_keeps_active_or_public (w : World) (op : Operation) (st : State) :
  activeOrPublic w st -> activeOrPublic w (snd (perform w op st)).
Proof.
  intros I. destruct op; cbn [perform].
  - rewrite createAccount_run.
    destruct (agent_createAccount w (trace st) props) as [[sd|]|e]; try exact I.
    destruct (isSessionDeactivated w (Some (sess_accessJwt sd))) as [d|e];
      try exact I.
    right. exists sd. now apply adoptAgent_agent.
  - rewrite login_run.
    destruct (agent_login w (trace st) props) as [[sd|]|e]; try exact I.
    destruct (isSessionDeactivated w (Some (sess_accessJwt sd))) as [d|e];
      try exact I.
    right. exists sd. now apply adoptAgent_agent.
  - left. reflexivity.
  - left. reflexivity.
  - apply initSession_agent.
  - destruct account as [a|].
    + unfold resumeSession. rewrite resumeSessionWith_run.
      apply (initSession_agent w a st).
    + exact I.
  - exact I.
  - rewrite selectAccount_state.
    apply (initSession_agent w account (withSwitching true st)).
  - assert (C : event = EvNetworkError \/ event <> EvNetworkError)
      by (destruct event; (now left) || (right; discriminate)).
    destruct C as [->|Hev]; [left; reflexivity|].
    destruct (isSessionDeactivated w (option_map sess_accessJwt sess))
      as [d|e] eqn:Hd.
    + rewrite (persistSession_run w account event sess d st Hev Hd).
      cbv zeta. destruct (isExpiredEvent event); [left; reflexivity|exact I].
    + rewrite (persistSession_throws w account event sess e st Hev Hd). exact I.
  - destruct (currentAccount w st) as [cur|e] eqn:C.
    + rewrite (onUpdate_run w persistedSession st cur C).
      destruct (p_currentAccount persistedSession) as [pc|].
      * destruct (truthy (refreshJwt pc)); [|exact I].
        destruct (negb _); [apply initSession_agent|].
        right. simpl. eauto.
      * destruct cur; [left; reflexivity|exact I].
    + unfold onUpdate, currentAccount in *.
      unfold bind at 1. unfold gets at 1. unfold bind at 1.
      unfold liftRes at 1. rewrite C. exact I.
Qed.

(** X24: the active agent is always either the public agent or an agent
    that holds a session: this holds when the provider starts and is
    kept by every operation of [perform], completed or thrown; so
    whenever the current account can be derived, there is no session
    exactly when the public agent is the active one. *)
Theorem active_agent_is_public_or_signed_in
    (w : World) (op : Operation) (st : State) :
  activeOrPublic w st ->
  activeOrPublic w (snd (perform w op st)) /\
  (forall roster labs, activeOrPublic w (initialState w roster labs)) /\
  (hasSession w st = Ok false <-> agent st = PUBLIC_BSKY_AGENT w).
Proof.
  intros I. split; [now apply perform_keeps_active_or_public|].
  split; [intros roster labs; left; reflexivity|].
  split; [|apply hasSession_public].
  unfold hasSession, currentAccount, agentToSessionAccount.
  destruct I as [E|(sd & E)]; [auto|]. rewrite E.
  destruct (isSessionDeactivated w (Some (sess_accessJwt sd))); discriminate.
Qed.

Lemma active_agent_is_public_or_signed_in_witness :
  activeOrPublic Sample.offline
    (snd (perform Sample.offline (OpSelectAccount Sample.bob "SwitchAccount")
            (Sample.signedIn Sample.alice [Sample.alice; Sample.bob]))).
Proof.
  apply (active_agent_is_public_or_signed_in Sample.offline
           (OpSelectAccount Sample.bob "SwitchAccount")
           (Sample.signedIn Sample.alice [Sample.alice; Sample.bob])).
  right. simpl. eauto.
Defined.

(** X25: an account leaves the roster only by removeAccount or by a
    received snapshot: every other operation of [perform], whether it
    completes or throws, ends with every roster id it started with, and
    except for logout the roster it ends with comes from the one it
    started with by upserts alone. *)
Theorem only_removal_drops_accounts
    (w : World) (op : Operation) (st : State) :
  keepsRoster op ->
  (forall d, In d (dids (accounts st)) ->
             In d (dids (accounts (snd (perform w op st))))) /\
  ((forall logContext, op <> OpLogout logContext) ->
   upserted (accounts st) (accounts (snd (perform w op st)))).
Proof.
  intros K.
  assert (U : (forall logContext, op <> OpLogout logContext) ->
              upserted (accounts st) (accounts (snd (perform w op st)))).
  { intros NL. destruct op; cbn [perform]; try contradiction.
    - apply createAccount_upserted.
    - apply login_upserted.
    - exfalso. now apply (NL logContext).
    - apply upserted_refl.
    - apply initSession_upserted.
    - destruct account as [a|]; [|apply upserted_refl].
      unfold resumeSession. rewrite resumeSessionWith_run.
      apply (initSession_upserted w a st).
    - rewrite selectAccount_state.
      apply (initSession_upserted w account (withSwitching true st)).
    - apply quiet_persistSession. }
  split; [|exact U].
  intros d Hd.
  assert (L : (exists lc, op = OpLogout lc) \/ forall lc, op <> OpLogout lc).
  { destruct op; try (right; discriminate). left. eauto. }
  destruct L as [(lc & ->)|NL].
  - cbn [perform]. run.
    pose proof (dids_clearTokens (accounts st)) as E. unfold dids in *.
    now rewrite E.
  - eapply upserted_keeps_dids; [apply U, NL | exact Hd].
Qed.

Lemma only_removal_drops_accounts_witness :
  In "did:plc:A"
    (dids (accounts (snd (perform Sample.offline
                            (OpPersistSession Sample.alice EvExpired None)
                            (Sample.signedIn Sample.alice
                               [Sample.alice; Sample.bob]))))).
Proof.
  apply (proj1 (only_removal_drops_accounts Sample.offline
                  (OpPersistSession Sample.alice EvExpired None)
                  (Sample.signedIn Sample.alice [Sample.alice; Sample.bob]) I)).
  left. reflexivity.
Defined.
